(** * learning-webgpu: the documentation snippets and the theme transform

    The repository is a VitePress site whose markdown pages embed
    evaluable JavaScript cells.  Three of them are asynchronous functions
    that drive the browser's WebGPU interface
    ([drawTrianglesToTextures] and [doubleGPU] in docs/fundamentals.md,
    [drawTriangleWithShader] in docs/inter-stage-variables.md); the theme
    (docs/.vitepress/theme/index.js) adds one source-to-source transform,
    [braces].

    The snippets are embedded as programs of a small free monad over the
    requests a cell makes to the browser.  The browser is any state
    machine answering those requests, so that a statement about a snippet
    quantifies over every browser; one reference browser that actually
    stores buffers, enforces the limit on the workgroups of a dispatch and
    executes submitted command buffers is given for the compute example,
    for any GPU arithmetic that WGSL permits. *)

From Stdlib Require Import List String Ascii ZArith Bool Lia Sorted Permutation.
From Stdlib Require Import SpecFloat DecimalString.
Import ListNotations.

Set Implicit Arguments.
Set Warnings "-register-all".
Local Open Scope string_scope.
Local Open Scope list_scope.

(** ** JavaScript values *)

Module JS.

(** A JavaScript number is an IEEE-754 binary64; the elements of a
    [Float32Array] are binary32. *)
Definition float64 : Type := spec_float.
Definition float32 : Type := spec_float.

Definition prec32 : Z := 24.
Definition emax32 : Z := 128.

(** [Math.fround]: the conversion a [Float32Array] applies to every
    number stored into it (round to nearest, ties to even). *)
Definition fround (x : float64) : float32 :=
  match x with
  | S754_finite s m e =>
      binary_normalize prec32 emax32 (cond_Zopp s (Zpos m)) e s
  | _ => x
  end.

Definition f32_mul (x y : float32) : float32 := SFmul prec32 emax32 x y.

Definition f32_zero : float32 := S754_zero false.

(** The f32 literal [2.0]. *)
Definition f32_two : float32 := S754_finite false 8388608 (-22).

(** The f64 literal [0.3] (0x3FD3333333333333). *)
Definition num_0_3 : float64 := S754_finite false 5404319552844595 (-54).

(** Values.  [VInt z] is the number whose value is the integer [z]
    (lengths, byte sizes, counts and bit flags are carried this way);
    [VNum] is any other number.  [VHost] is an opaque reference to an
    object owned by the browser (adapter, device, promise, buffer, ...),
    [VGlobal] a global binding of the page ([navigator], [document],
    [window]). *)
Inductive value : Type :=
| VUndefined
| VNull
| VBool (b : bool)
| VInt (z : Z)
| VNum (x : float64)
| VStr (s : string)
| VArr (items : list value)
| VObj (fields : list (string * value))
| VFloat32Array (elems : list float32)
| VArrayBuffer (words : list float32)
| VHost (id : nat)
| VGlobal (name : string)
| VError (name : string).

(** ToBoolean. *)
Definition truthy (v : value) : bool :=
  match v with
  | VUndefined | VNull => false
  | VBool b => b
  | VInt z => negb (Z.eqb z 0)
  | VNum x =>
      match x with
      | S754_zero _ | S754_nan => false
      | _ => true
      end
  | VStr s => negb (String.eqb s "")
  | _ => true
  end.

(** Reading a property of [undefined] or [null] raises a TypeError. *)
Definition nullish (v : value) : bool :=
  match v with
  | VUndefined | VNull => true
  | _ => false
  end.

Definition is_undefined (v : value) : bool :=
  match v with
  | VUndefined => true
  | _ => false
  end.

Definition TypeError : value := VError "TypeError".
Definition RangeError : value := VError "RangeError".

(** Assignment to a property of a script-owned object literal,
    [o.k = v]. *)
Fixpoint set_field (k : string) (v : value) (fields : list (string * value))
  : list (string * value) :=
  match fields with
  | [] => [(k, v)]
  | (k', v') :: rest =>
      if String.eqb k k' then (k, v) :: rest
      else (k', v') :: set_field k v rest
  end.

Fixpoint get_field (k : string) (fields : list (string * value)) : value :=
  match fields with
  | [] => VUndefined
  | (k', v') :: rest => if String.eqb k k' then v' else get_field k rest
  end.

(** [new Float32Array(numbers)] for an array of numbers. *)
Definition Float32Array_from (numbers : list float64) : list float32 :=
  map fround numbers.

(** [.byteLength] and [.length] of a Float32Array. *)
Definition byteLength (a : list float32) : Z := 4 * Z.of_nat (List.length a).

(** ** Values of the script and objects of the browser *)

(** The objects owned by the browser: what is asked of them is a request.
    Every other value belongs to the script, and the engine answers for
    it. *)
Definition is_host (v : value) : bool :=
  match v with
  | VHost _ | VGlobal _ => true
  | _ => false
  end.

(** Of the methods the pages call, [slice] is the only one that a
    built-in prototype defines: strings, arrays, typed arrays and
    ArrayBuffers have it.  A number, a boolean, an object literal or an
    error has none of them; the fields of a [VObj] hold no function. *)
Definition builtin_method (v : value) (method : string) : bool :=
  String.eqb method "slice"
  && match v with
     | VStr _ | VArr _ | VFloat32Array _ | VArrayBuffer _ => true
     | _ => false
     end.

(** [v.prop] for a value of the script other than [undefined] and
    [null]: a field of an object literal, the length of a string or an
    array, [undefined] for what the value does not have. *)
Definition own_property (v : value) (prop : string) : value :=
  match v with
  | VObj fields => get_field prop fields
  | VStr s =>
      if String.eqb prop "length" then VInt (Z.of_nat (String.length s))
      else VUndefined
  | VArr items =>
      if String.eqb prop "length" then VInt (Z.of_nat (List.length items))
      else VUndefined
  | VFloat32Array elems =>
      if String.eqb prop "length" then VInt (Z.of_nat (List.length elems))
      else if String.eqb prop "byteLength" then VInt (byteLength elems)
      else VUndefined
  | VArrayBuffer words =>
      if String.eqb prop "byteLength" then VInt (byteLength words)
      else VUndefined
  | VError name => if String.eqb prop "name" then VStr name else VUndefined
  | _ => VUndefined
  end.

(** ** Conversions to numbers *)

Definition prec64 : Z := 53.
Definition emax64 : Z := 1024.

Definition f64_of_Z (z : Z) : float64 := binary_normalize prec64 emax64 z 0 false.

(** The number [(-1)^negative * m * 10^e], rounded to nearest. *)
Definition f64_of_decimal (negative : bool) (m e : Z) : float64 :=
  match m with
  | Zpos p =>
      if (0 <=? e)%Z then
        binary_normalize prec64 emax64 (cond_Zopp negative (Zpos p * 10 ^ e)) 0
          negative
      else
        SFdiv prec64 emax64 (S754_finite negative p 0)
          (S754_finite false (Z.to_pos (10 ^ (- e))) 0)
  | _ => S754_zero negative
  end.

Definition is_white_space (c : ascii) : bool :=
  existsb (Nat.eqb (nat_of_ascii c)) [9; 10; 11; 12; 13; 32; 160].

Fixpoint skip_white_space (cs : list ascii) : list ascii :=
  match cs with
  | c :: rest => if is_white_space c then skip_white_space rest else cs
  | [] => []
  end.

Definition trim (cs : list ascii) : list ascii :=
  rev (skip_white_space (rev (skip_white_space cs))).

Definition digit_of (base : nat) (c : ascii) : option Z :=
  let n := nat_of_ascii c in
  let d :=
    (if (48 <=? n) && (n <=? 57) then Some (n - 48)
     else if (97 <=? n) && (n <=? 102) then Some (n - 87)
     else if (65 <=? n) && (n <=? 70) then Some (n - 55)
     else None)%nat in
  match d with
  | Some d => if (d <? base)%nat then Some (Z.of_nat d) else None
  | None => None
  end.

(** The longest run of digits at the head of [cs]: its value on top of
    [acc], the number of digits, what follows. *)
Fixpoint digits (base : nat) (cs : list ascii) (acc : Z) (count : nat)
  : Z * nat * list ascii :=
  match cs with
  | c :: rest =>
      match digit_of base c with
      | Some d => digits base rest (acc * Z.of_nat base + d)%Z (S count)
      | None => (acc, count, cs)
      end
  | [] => (acc, count, [])
  end.

Definition sign_of (cs : list ascii) : bool * list ascii :=
  match cs with
  | "-"%char :: rest => (true, rest)
  | "+"%char :: rest => (false, rest)
  | _ => (false, cs)
  end.

Definition is_nil (cs : list ascii) : bool :=
  match cs with [] => true | _ => false end.

(** StrDecimalLiteral *)
Definition decimal_literal (cs : list ascii) : float64 :=
  let (negative, cs) := sign_of cs in
  if String.eqb (string_of_list_ascii cs) "Infinity" then S754_infinity negative
  else
    let '(whole, n1, cs) := digits 10 cs 0 0 in
    let '(mantissa, n2, cs) :=
      match cs with
      | "."%char :: rest => digits 10 rest whole 0
      | _ => (whole, 0, cs)
      end in
    let '(exponent, well_formed, cs) :=
      match cs with
      | c :: rest =>
          if Ascii.eqb c "e" || Ascii.eqb c "E" then
            let (negative_exponent, rest) := sign_of rest in
            let '(x, n3, rest) := digits 10 rest 0 0 in
            ((if negative_exponent then - x else x)%Z, negb (n3 =? 0)%nat, rest)
          else (0%Z, true, cs)
      | [] => (0%Z, true, cs)
      end in
    if negb (n1 + n2 =? 0)%nat && well_formed && is_nil cs
    then f64_of_decimal negative mantissa (exponent - Z.of_nat n2)
    else S754_nan.

(** NonDecimalIntegerLiteral, after its prefix *)
Definition radix_literal (base : nat) (cs : list ascii) : float64 :=
  let '(x, n, rest) := digits base cs 0 0 in
  if negb (n =? 0)%nat && is_nil rest then f64_of_Z x else S754_nan.

(** StringToNumber *)
Definition StringToNumber (s : string) : float64 :=
  match trim (list_ascii_of_string s) with
  | [] => S754_zero false
  | ("0"%char :: c :: rest) as cs =>
      if Ascii.eqb c "x" || Ascii.eqb c "X" then radix_literal 16 rest
      else if Ascii.eqb c "o" || Ascii.eqb c "O" then radix_literal 8 rest
      else if Ascii.eqb c "b" || Ascii.eqb c "B" then radix_literal 2 rest
      else decimal_literal cs
  | cs => decimal_literal cs
  end.

(** The number that the text of a value denotes,
    [StringToNumber(ToString(v))]: a number prints as a text that reads
    back as itself (the sign of a zero apart), an array as its elements
    separated by commas, [undefined] and [null] printing as nothing
    there; the text of any other object is no numeral. *)
Fixpoint text_number (v : value) : float64 :=
  match v with
  | VInt z => f64_of_Z z
  | VNum (S754_zero _) => S754_zero false
  | VNum x => x
  | VStr s => StringToNumber s
  | VArr [] => S754_zero false
  | VArr [VUndefined] | VArr [VNull] => S754_zero false
  | VArr [item] => text_number item
  | VFloat32Array [] => S754_zero false
  | VFloat32Array [S754_zero _] => S754_zero false
  | VFloat32Array [x] => x
  | _ => S754_nan
  end.

(** ToNumber *)
Definition ToNumber (v : value) : float64 :=
  match v with
  | VUndefined => S754_nan
  | VNull => S754_zero false
  | VBool b => if b then f64_of_Z 1 else S754_zero false
  | VInt z => f64_of_Z z
  | VNum x => x
  | VStr s => StringToNumber s
  | _ => text_number v
  end.

(** ToIntegerOrInfinity, [None] for an infinity. *)
Definition integer_part (x : float64) : option Z :=
  match x with
  | S754_zero _ | S754_nan => Some 0%Z
  | S754_infinity _ => None
  | S754_finite s m e =>
      Some (cond_Zopp s (if (0 <=? e)%Z then Zpos m * 2 ^ e
                         else Zpos m / 2 ^ (- e)))%Z
  end.

Definition max_safe_integer : Z := 2 ^ 53 - 1.

(** ToIndex, [None] where it raises a RangeError. *)
Definition ToIndex (v : value) : option nat :=
  match v with
  | VInt z =>
      if ((0 <=? z) && (z <=? max_safe_integer))%Z then Some (Z.to_nat z)
      else None
  | _ =>
      match integer_part (ToNumber v) with
      | Some k =>
          if ((0 <=? k) && (k <=? max_safe_integer))%Z then Some (Z.to_nat k)
          else None
      | None => None
      end
  end.

(** ToLength *)
Definition ToLength (v : value) : nat :=
  match integer_part (ToNumber v) with
  | Some k => Z.to_nat (Z.min k max_safe_integer)
  | None =>
      match ToNumber v with
      | S754_infinity false => Z.to_nat max_safe_integer
      | _ => 0
      end
  end.

(** The elements of [new Float32Array(src)], [None] where the
    constructor raises a RangeError.  An ArrayBuffer is viewed as its
    32-bit words and a typed array is copied; the elements of an array
    are converted one by one; an object literal is read as an array-like,
    through its [length] and its fields named by the indices; anything
    that is not an object is a length, giving that many zeros.  An object
    of the browser or an error has no [length] that the constructor can
    read and gives no element; memory is unbounded: a length is never
    refused for lack of it. *)
Definition Float32Array_of (src : value) : option (list float32) :=
  match src with
  | VArrayBuffer words => Some words
  | VFloat32Array elems => Some elems
  | VArr items => Some (map (fun item => fround (ToNumber item)) items)
  | VObj fields =>
      Some (map (fun k =>
                   fround (ToNumber
                             (get_field (NilZero.string_of_uint (Nat.to_uint k))
                                fields)))
              (seq 0 (ToLength (get_field "length" fields))))
  | VHost _ | VGlobal _ | VError _ => Some []
  | _ =>
      match ToIndex src with
      | Some n => Some (repeat f32_zero n)
      | None => None
      end
  end.

End JS.
Import JS.

(** ** Requests to the browser, and programs *)

(** What a cell can ask of its environment.  Every method call, property
    read or write on a browser object, call of a global function and
    [await] is a request; the browser answers with a value or raises.  A
    call of a built-in method of a value of the script is answered in the
    same way; reading a property of such a value is not a request. *)
Inductive request : Type :=
| GetProp (obj : value) (prop : string)
| SetProp (obj : value) (prop : string) (v : value)
| Invoke (obj : value) (method : string) (args : list value)
| CallGlobal (fn : string) (args : list value)
| Await (promise : value).

Inductive response : Type :=
| Returns (v : value)
| Raises (e : value).

Definition event : Type := (request * response)%type.

Inductive prog (A : Type) : Type :=
| Ret (a : A)
| Throw (e : value)
| Op (q : request) (k : response -> prog A).

Arguments Ret {A} a.
Arguments Throw {A} e.
Arguments Op {A} q k.

Fixpoint bind {A B : Type} (m : prog A) (f : A -> prog B) : prog B :=
  match m with
  | Ret a => f a
  | Throw e => Throw e
  | Op q k => Op q (fun r => bind (k r) f)
  end.

Declare Scope prog_scope.
Delimit Scope prog_scope with prog.
Bind Scope prog_scope with prog.
Notation "x <- m ;; k" := (bind m (fun x => k))
  (at level 61, m at next level, right associativity) : prog_scope.
Notation "m ;; k" := (bind m (fun _ => k))
  (at level 61, right associativity) : prog_scope.
Local Open Scope prog_scope.

(** A request whose exception, if any, is rethrown at the call site. *)
Definition perform (q : request) : prog value :=
  Op q (fun r => match r with
                 | Returns v => Ret v
                 | Raises e => Throw e
                 end).

(** [obj.prop] *)
Definition get (obj : value) (prop : string) : prog value :=
  if nullish obj then Throw TypeError
  else if is_host obj then perform (GetProp obj prop)
  else Ret (own_property obj prop).

(** [obj.method(args)]: a TypeError, and no request, when [obj] is
    [undefined] or [null] or a value of the script without that method. *)
Definition invoke (obj : value) (method : string) (args : list value)
  : prog value :=
  if nullish obj then Throw TypeError
  else if is_host obj then perform (Invoke obj method args)
  else if builtin_method obj method then perform (Invoke obj method args)
  else Throw TypeError.

(** [fn(args)] for a global function of the browser *)
Definition call_global (fn : string) (args : list value) : prog value :=
  perform (CallGlobal fn args).

(** [await p] *)
Definition await (p : value) : prog value := perform (Await p).

(** [try { p } catch (e) { h e }].  No snippet uses it; it is what
    handling an exception would look like. *)
Fixpoint try_catch {A : Type} (p : prog A) (h : value -> prog A) : prog A :=
  match p with
  | Ret a => Ret a
  | Throw e => h e
  | Op q k => Op q (fun r => try_catch (k r) h)
  end.

(** ** Running a program against a browser *)

Inductive outcome (A : Type) : Type :=
| Returned (a : A)
| Threw (e : value).

Arguments Returned {A} a.
Arguments Threw {A} e.

Record run_result (Host A : Type) : Type := mkRun {
  trace : list event;
  result : outcome A;
  final : Host
}.

Section Run.
Variable Host : Type.
Variable respond : Host -> request -> response * Host.

Fixpoint run {A : Type} (p : prog A) (h : Host) : run_result Host A :=
  match p with
  | Ret a => mkRun [] (Returned a) h
  | Throw e => mkRun [] (Threw e) h
  | Op q k =>
      let (r, h') := respond h q in
      let rest := run (k r) h' in
      mkRun ((q, r) :: trace rest) (result rest) (final rest)
  end.
End Run.

(** A browser that plays back a fixed list of answers (and returns
    [undefined] once the list is exhausted). *)
Definition scripted (answers : list response) (q : request)
  : response * list response :=
  match answers with
  | [] => (Returns VUndefined, [])
  | r :: rest => (r, rest)
  end.

(** Weakest precondition over every possible sequence of answers. *)
Fixpoint wp {A : Type} (p : prog A) (Q : list event -> outcome A -> Prop)
  : Prop :=
  match p with
  | Ret a => Q [] (Returned a)
  | Throw e => Q [] (Threw e)
  | Op q k => forall r, wp (k r) (fun tr o => Q ((q, r) :: tr) o)
  end.

(** ** The theme: docs/.vitepress/theme/index.js *)

Module Theme.

(** A template literal: cooked text interleaved with substitutions, each
    substitution already converted to a string. *)
Inductive template_part : Type :=
| Cooked (text : string)
| Subst (s : string).

Fixpoint template_literal (parts : list template_part) : string :=
  match parts with
  | [] => ""
  | Cooked text :: rest => text ++ template_literal rest
  | Subst s :: rest => s ++ template_literal rest
  end.

(** [props.transform.braces]: [(code) => `(() => ${code})()`] *)
Definition braces (code : string) : string :=
  template_literal [Cooked "(() => "; Subst code; Cooked ")()"].

End Theme.

(** ** Constants of the WebGPU interface *)

(** The snippets read these flags from the browser's [GPUBufferUsage] and
    [GPUMapMode] namespaces; the values are those the WebGPU interface
    fixes for them. *)
Module GPUBufferUsage.
Definition MAP_READ : Z := 1.
Definition COPY_SRC : Z := 4.
Definition COPY_DST : Z := 8.
Definition STORAGE : Z := 128.
End GPUBufferUsage.

Module GPUMapMode.
Definition READ : Z := 1.
End GPUMapMode.

Definition navigator : value := VGlobal "navigator".
Definition document : value := VGlobal "document".
Definition window : value := VGlobal "window".

(** [new Float32Array(src)] for a value obtained from the browser. *)
Definition new_Float32Array (src : value) : prog value :=
  match Float32Array_of src with
  | Some elems => Ret (VFloat32Array elems)
  | None => Throw RangeError
  end.

(** ** The arithmetic of the GPU *)

(** What WGSL leaves to an implementation, as far as the compute shader
    of the pages goes: the product of two f32 (exact where the exact
    product is a normal number; an implementation may flush subnormal
    numbers to zero, may ignore the sign of a zero and need not produce
    infinities), and what an access outside a runtime-sized array
    does. *)
Record wgsl_implementation : Type := mkImplementation {
  wgsl_mul : float32 -> float32 -> float32;
  wgsl_out_of_bounds : nat -> list float32 -> list float32
}.

(** IEEE-754 products; accesses outside the array are dropped. *)
Definition ieee : wgsl_implementation :=
  mkImplementation f32_mul (fun _ data => data).

Definition is_subnormal (x : float32) : bool :=
  match x with
  | S754_finite _ m _ => (Z.pos (digits2_pos m) <? prec32)%Z
  | _ => false
  end.

Definition flush (x : float32) : float32 :=
  match x with
  | S754_finite s _ _ => if is_subnormal x then S754_zero s else x
  | _ => x
  end.

(** The same with subnormal operands and results flushed to zero. *)
Definition flushing : wgsl_implementation :=
  mkImplementation (fun x y => flush (f32_mul (flush x) (flush y)))
    (fun _ data => data).

(** ** docs/fundamentals.md *)

Module Fundamentals.

(** [function fail(msg) { alert(msg); }] *)
Definition fail (msg : value) : prog value :=
  call_global "alert" [msg] ;;
  Ret VUndefined.

Definition red_triangle_wgsl : string := "
      @vertex fn vs(
        @builtin(vertex_index) vertexIndex : u32
      ) -> @builtin(position) vec4f {
        let pos = array(
          vec2f( 0.0,  0.5),  // top center
          vec2f(-0.5, -0.5),  // bottom left
          vec2f( 0.5, -0.5)   // bottom right
        );

        return vec4f(pos[vertexIndex], 0.0, 1.0);
      }

      @fragment fn fs() -> @location(0) vec4f {
        return vec4f(1, 0, 0, 1);
      }
    ".

Definition renderPassDescriptor : list (string * value) :=
  [ ("label", VStr "our basic canvas renderPass");
    ("colorAttachments",
      VArr [ VObj [ ("clearValue",
                      VArr [VNum num_0_3; VNum num_0_3; VNum num_0_3; VInt 1]);
                    ("loadOp", VStr "clear");
                    ("storeOp", VStr "store") ] ]) ].

(** [renderPassDescriptor.colorAttachments[0].view = view] *)
Definition set_view (view : value) (descriptor : list (string * value))
  : list (string * value) :=
  match get_field "colorAttachments" descriptor with
  | VArr (VObj attachment :: others) =>
      set_field "colorAttachments"
        (VArr (VObj (set_field "view" view attachment) :: others)) descriptor
  | _ => descriptor
  end.

(** The inner [function render()], called once. *)
Definition render (device context pipeline : value)
  (descriptor : list (string * value)) : prog value :=
  texture <- invoke context "getCurrentTexture" [] ;;
  view <- invoke texture "createView" [] ;;
  let descriptor := set_view view descriptor in
  encoder <- invoke device "createCommandEncoder"
               [VObj [("label", VStr "our encoder")]] ;;
  pass <- invoke encoder "beginRenderPass" [VObj descriptor] ;;
  invoke pass "setPipeline" [pipeline] ;;
  invoke pass "draw" [VInt 3] ;;
  invoke pass "end" [] ;;
  commandBuffer <- invoke encoder "finish" [] ;;
  queue <- get device "queue" ;;
  invoke queue "submit" [VArr [commandBuffer]] ;;
  Ret VUndefined.

(** [async function drawTrianglesToTextures(canvas =
    document.createElement("canvas"))].  The argument is [VUndefined] when
    the caller passes none. *)
Definition drawTrianglesToTextures (canvas : value) : prog value :=
  canvas <- (if is_undefined canvas
             then invoke document "createElement" [VStr "canvas"]
             else Ret canvas) ;;
  gpu <- get navigator "gpu" ;;
  promise <- invoke gpu "requestAdapter" [] ;;
  adapter <- await promise ;;
  promise <- invoke adapter "requestDevice" [] ;;
  device <- await promise ;;
  if negb (truthy device) then
    fail (VStr "need a browser that supports WebGPU") ;;
    Ret VUndefined
  else
    context <- invoke canvas "getContext" [VStr "webgpu"] ;;
    gpu <- get navigator "gpu" ;;
    presentationFormat <- invoke gpu "getPreferredCanvasFormat" [] ;;
    invoke context "configure"
      [VObj [("device", device); ("format", presentationFormat)]] ;;
    module <- invoke device "createShaderModule"
                [VObj [ ("label", VStr "our hardcoded red triangle shaders");
                        ("code", VStr red_triangle_wgsl) ]] ;;
    pipeline <- invoke device "createRenderPipeline"
                  [VObj [ ("label", VStr "our hardcoded red triangle pipeline");
                          ("layout", VStr "auto");
                          ("vertex", VObj [("module", module)]);
                          ("fragment",
                            VObj [ ("module", module);
                                   ("targets",
                                     VArr [VObj [("format", presentationFormat)]]) ]) ]] ;;
    render device context pipeline renderPassDescriptor ;;
    Ret canvas.

Definition doubling_wgsl : string := "
      @group(0) @binding(0) var<storage, read_write> data: array<f32>;

      @compute @workgroup_size(1) fn computeSomething(
        @builtin(global_invocation_id) id: vec3u
      ) {
        let i = id.x;
        data[i] = data[i] * 2.0;
      }
    ".

(** The compute entry point of [doubling_wgsl]:
    [let i = id.x; data[i] = data[i] * 2.0;] on [array<f32>], for the
    arithmetic of a given implementation.  What happens for an index
    outside the array is the implementation's choice. *)
Definition computeSomething (impl : wgsl_implementation) (id_x : nat)
  (data : list float32) : list float32 :=
  match nth_error data id_x with
  | Some d =>
      firstn id_x data ++ wgsl_mul impl d f32_two :: skipn (S id_x) data
  | None => wgsl_out_of_bounds impl id_x data
  end.

(** [async function doubleGPU(numbers)] *)
Definition doubleGPU (numbers : list float64) : prog value :=
  gpu <- get navigator "gpu" ;;
  promise <- invoke gpu "requestAdapter" [] ;;
  adapter <- await promise ;;
  promise <- invoke adapter "requestDevice" [] ;;
  device <- await promise ;;
  if negb (truthy device) then
    fail (VStr "need a browser that supports WebGPU") ;;
    Ret VUndefined
  else
    module <- invoke device "createShaderModule"
                [VObj [ ("label", VStr "doubling compute module");
                        ("code", VStr doubling_wgsl) ]] ;;
    pipeline <- invoke device "createComputePipeline"
                  [VObj [ ("label", VStr "doubling compute pipeline");
                          ("layout", VStr "auto");
                          ("compute", VObj [("module", module)]) ]] ;;
    let input := Float32Array_from numbers in
    workBuffer <- invoke device "createBuffer"
                    [VObj [ ("label", VStr "work buffer");
                            ("size", VInt (byteLength input));
                            ("usage",
                              VInt (Z.lor (Z.lor GPUBufferUsage.STORAGE
                                                 GPUBufferUsage.COPY_SRC)
                                          GPUBufferUsage.COPY_DST)) ]] ;;
    queue <- get device "queue" ;;
    invoke queue "writeBuffer" [workBuffer; VInt 0; VFloat32Array input] ;;
    resultBuffer <- invoke device "createBuffer"
                      [VObj [ ("label", VStr "result buffer");
                              ("size", VInt (byteLength input));
                              ("usage",
                                VInt (Z.lor GPUBufferUsage.MAP_READ
                                            GPUBufferUsage.COPY_DST)) ]] ;;
    layout <- invoke pipeline "getBindGroupLayout" [VInt 0] ;;
    bindGroup <- invoke device "createBindGroup"
                   [VObj [ ("label", VStr "bindGroup for work buffer");
                           ("layout", layout);
                           ("entries",
                             VArr [VObj [ ("binding", VInt 0);
                                          ("resource",
                                            VObj [("buffer", workBuffer)]) ]]) ]] ;;
    encoder <- invoke device "createCommandEncoder"
                 [VObj [("label", VStr "doubling encoder")]] ;;
    pass <- invoke encoder "beginComputePass"
              [VObj [("label", VStr "doubling compute pass")]] ;;
    invoke pass "setPipeline" [pipeline] ;;
    invoke pass "setBindGroup" [VInt 0; bindGroup] ;;
    invoke pass "dispatchWorkgroups" [VInt (Z.of_nat (List.length input))] ;;
    invoke pass "end" [] ;;
    size <- get resultBuffer "size" ;;
    invoke encoder "copyBufferToBuffer"
      [workBuffer; VInt 0; resultBuffer; VInt 0; size] ;;
    commandBuffer <- invoke encoder "finish" [] ;;
    queue <- get device "queue" ;;
    invoke queue "submit" [VArr [commandBuffer]] ;;
    promise <- invoke resultBuffer "mapAsync" [VInt GPUMapMode.READ] ;;
    await promise ;;
    range <- invoke resultBuffer "getMappedRange" [] ;;
    copy <- invoke range "slice" [] ;;
    result <- new_Float32Array copy ;;
    invoke resultBuffer "unmap" [] ;;
    Ret result.

End Fundamentals.

(** ** docs/inter-stage-variables.md *)

Module InterStageVariables.

(** [function fail(msg) { alert(msg); }] *)
Definition fail (msg : value) : prog value :=
  call_global "alert" [msg] ;;
  Ret VUndefined.

Definition renderPassDescriptor : list (string * value) :=
  [ ("label", VStr "our basic canvas renderPass");
    ("colorAttachments",
      VArr [ VObj [ ("clearValue",
                      VArr [VNum num_0_3; VNum num_0_3; VNum num_0_3; VInt 1]);
                    ("loadOp", VStr "clear");
                    ("storeOp", VStr "store") ] ]) ].

Definition set_view (view : value) (descriptor : list (string * value))
  : list (string * value) :=
  match get_field "colorAttachments" descriptor with
  | VArr (VObj attachment :: others) =>
      set_field "colorAttachments"
        (VArr (VObj (set_field "view" view attachment) :: others)) descriptor
  | _ => descriptor
  end.

Definition render (device context pipeline : value)
  (descriptor : list (string * value)) : prog value :=
  texture <- invoke context "getCurrentTexture" [] ;;
  view <- invoke texture "createView" [] ;;
  let descriptor := set_view view descriptor in
  encoder <- invoke device "createCommandEncoder"
               [VObj [("label", VStr "our encoder")]] ;;
  pass <- invoke encoder "beginRenderPass" [VObj descriptor] ;;
  invoke pass "setPipeline" [pipeline] ;;
  invoke pass "draw" [VInt 3] ;;
  invoke pass "end" [] ;;
  commandBuffer <- invoke encoder "finish" [] ;;
  queue <- get device "queue" ;;
  invoke queue "submit" [VArr [commandBuffer]] ;;
  Ret VUndefined.

(** [async function drawTriangleWithShader(shader, fragmentShader)].
    [fragmentShader] is [VUndefined] when the caller passes one argument. *)
Definition drawTriangleWithShader (shader fragmentShader : value)
  : prog value :=
  gpu <- get navigator "gpu" ;;
  promise <- invoke gpu "requestAdapter" [] ;;
  adapter <- await promise ;;
  promise <- invoke adapter "requestDevice" [] ;;
  device <- await promise ;;
  if negb (truthy device) then
    fail (VStr "need a browser that supports WebGPU") ;;
    Ret VUndefined
  else
    canvas <- invoke document "createElement" [VStr "canvas"] ;;
    ratio <- get window "devicePixelRatio" ;;
    let devicePixelRatio := if truthy ratio then ratio else VInt 1 in
    context <- invoke canvas "getContext" [VStr "webgpu"] ;;
    gpu <- get navigator "gpu" ;;
    presentationFormat <- invoke gpu "getPreferredCanvasFormat" [] ;;
    invoke context "configure"
      [VObj [("device", device); ("format", presentationFormat)]] ;;
    module <- invoke device "createShaderModule" [shader] ;;
    fragmentModule <- (if truthy fragmentShader
                       then invoke device "createShaderModule" [fragmentShader]
                       else Ret module) ;;
    pipeline <- invoke device "createRenderPipeline"
                  [VObj [ ("label", VStr "our hardcoded red triangle pipeline");
                          ("layout", VStr "auto");
                          ("vertex", VObj [("module", module)]);
                          ("fragment",
                            VObj [ ("module", fragmentModule);
                                   ("targets",
                                     VArr [VObj [("format", presentationFormat)]]) ]) ]] ;;
    render device context pipeline renderPassDescriptor ;;
    Ret canvas.

Definition rgb_vertex_prefix : string := "
    struct OurVertexShaderOutput {
      @builtin(position) position: vec4f,
      @location(0) color: vec4f,
    };

    @vertex fn vs(
      @builtin(vertex_index) vertexIndex : u32
    ) -> OurVertexShaderOutput {
      let pos = array(
        vec2f( 0.0,  0.5),  // top center
        vec2f(-0.5, -0.5),  // bottom left
        vec2f( 0.5, -0.5)   // bottom right
      );

      var color = array<vec4f, 3>(
        vec4f(1, 0, 0, 1), // red
        vec4f(0, 1, 0, 1), // green
        vec4f(0, 0, 1, 1), // blue
      );

      var vsOutput: OurVertexShaderOutput;
      vsOutput.position = vec4f(pos[vertexIndex], 0.0, 1.0);
      vsOutput.color = color[vertexIndex];
      return vsOutput;
    }

    ".

Definition rgb_vertex_suffix : string := "
  ".

(** [function drawTriangleWithFragmentShader(fragment)] *)
Definition drawTriangleWithFragmentShader (fragment : string) : prog value :=
  drawTriangleWithShader
    (VObj [ ("label", VStr "our hardcoded rgb triangle shaders");
            ("code",
              VStr (Theme.template_literal
                      [ Theme.Cooked rgb_vertex_prefix;
                        Theme.Subst fragment;
                        Theme.Cooked rgb_vertex_suffix ])) ])
    VUndefined.

Definition rgb_triangle_wgsl : string := "
    struct OurVertexShaderOutput {
      @builtin(position) position: vec4f,
      @location(0) color: vec4f,
    };

    @vertex fn vs(
      @builtin(vertex_index) vertexIndex : u32
    ) -> OurVertexShaderOutput {
      let pos = array(
        vec2f( 0.0,  0.5),  // top center
        vec2f(-0.5, -0.5),  // bottom left
        vec2f( 0.5, -0.5)   // bottom right
      );

      var color = array<vec4f, 3>(
        vec4f(1, 0, 0, 1), // red
        vec4f(0, 1, 0, 1), // green
        vec4f(0, 0, 1, 1), // blue
      );

      var vsOutput: OurVertexShaderOutput;
      vsOutput.position = vec4f(pos[vertexIndex], 0.0, 1.0);
      vsOutput.color = color[vertexIndex];
      return vsOutput;
    }

    @fragment fn fs(fsInput: OurVertexShaderOutput) -> @location(0) vec4f {
      return fsInput.color;
    }
  ".

(** The shader of the page's first cell. *)
Definition rgb_triangle_shader : value :=
  VObj [ ("label", VStr "our hardcoded rgb triangle shaders");
         ("code", VStr rgb_triangle_wgsl) ].

Definition vs_wgsl : string := "
      struct OurVertexShaderOutput {
        @builtin(position) position: vec4f,
      };

      @vertex fn vs(
        @builtin(vertex_index) vertexIndex : u32
      ) -> OurVertexShaderOutput {
        let pos = array(
          vec2f( 0.0,  0.5),  // top center
          vec2f(-0.5, -0.5),  // bottom left
          vec2f( 0.5, -0.5)   // bottom right
        );

        var vsOutput: OurVertexShaderOutput;
        vsOutput.position = vec4f(pos[vertexIndex], 0.0, 1.0);
        return vsOutput;
      }
    ".

Definition fs_wgsl : string := "
      @fragment fn fs(@builtin(position) pixelPosition: vec4f) -> @location(0) vec4f {
        let red = vec4f(1, 0, 0, 1);
        let cyan = vec4f(0, 1, 1, 1);

        let grid = vec2u(pixelPosition.xy) / 8;
        let checker = (grid.x + grid.y) % 2 == 1;

        return select(red, cyan, checker);
      }
    ".

(** The two descriptors of the page's last cell. *)
Definition vsModule : value :=
  VObj [("label", VStr "hardcoded triangle"); ("code", VStr vs_wgsl)].

Definition fsModule : value :=
  VObj [("label", VStr "checkerboard"); ("code", VStr fs_wgsl)].

End InterStageVariables.

(** The three snippet functions with their arguments. *)
Inductive snippet : Type :=
| DrawTrianglesToTextures (canvas : value)
| DoubleGPU (numbers : list float64)
| DrawTriangleWithShader (shader fragmentShader : value).

Definition snippet_prog (s : snippet) : prog value :=
  match s with
  | DrawTrianglesToTextures canvas =>
      Fundamentals.drawTrianglesToTextures canvas
  | DoubleGPU numbers => Fundamentals.doubleGPU numbers
  | DrawTriangleWithShader shader fragmentShader =>
      InterStageVariables.drawTriangleWithShader shader fragmentShader
  end.

(** ** A reference browser *)

(** A browser that implements the part of the WebGPU interface the
    snippets use, with a default device: objects live in a heap and are
    referred to by their index; command encoders record commands, and
    [queue.submit] executes them with the arithmetic of a given WGSL
    implementation.  Dispatching [n] workgroups of a pipeline whose entry
    point has [@workgroup_size(1)] runs the entry point once for each
    [global_invocation_id.x] below [n].

    A dispatch of more workgroups than the device's limit
    [maxComputeWorkgroupsPerDimension] is a validation error: it raises
    nothing, the encoder becomes invalid, and submitting the command
    buffer it finishes executes nothing.  This is the limit a run of
    [doubleGPU] meets first as its input grows; the limits on the sizes
    of buffers, which only longer inputs reach, and the validation of
    descriptors are not modelled. *)
Module Browser.

Inductive command : Type :=
| Draw (pipeline : option nat) (vertices : Z)
| Dispatch (pipeline bindGroup : option nat) (workgroups : nat)
| CopyBufferToBuffer (src : nat) (srcOffset : Z) (dst : nat)
    (dstOffset size : Z).

Inductive object : Type :=
| Gpu
| Promise (settled : value)
| Adapter
| Device (queue : nat)
| Queue
| Canvas
| CanvasContext
| Texture
| TextureView
| ShaderModule (code : string)
| RenderPipeline
| ComputePipeline (module : nat)
| BindGroupLayout
| Buffer (data : list float32) (mapped : bool)
| BindGroup (buffer : nat)
| CommandEncoder (commands : list command) (valid : bool)
| RenderPass (encoder : nat) (pipeline : option nat)
| ComputePass (encoder : nat) (pipeline bindGroup : option nat)
| CommandBuffer (commands : list command) (valid : bool)
| MappedRange (buffer : nat).

Definition heap : Type := list object.

(** [navigator.gpu] is object 0. *)
Definition initial : heap := [Gpu].

Definition alloc (o : object) (h : heap) : response * heap :=
  (Returns (VHost (List.length h)), h ++ [o]).

Fixpoint update (id : nat) (o : object) (h : heap) : heap :=
  match h, id with
  | [], _ => []
  | _ :: rest, O => o :: rest
  | o' :: rest, S id' => o' :: update id' o rest
  end.

Definition words_of_bytes (size : Z) : nat := Z.to_nat (size / 4).

(** The limit of a default device on the workgroups of a dispatch, and
    the range of the [GPUSize32] argument of [dispatchWorkgroups]. *)
Definition maxComputeWorkgroupsPerDimension : Z := 65535.
Definition max_GPUSize32 : Z := 4294967295.

(** The browser's shader compiler, restricted to the one compute shader
    of the repository. *)
Definition compile (impl : wgsl_implementation) (code : string)
  : option (nat -> list float32 -> list float32) :=
  if String.eqb code Fundamentals.doubling_wgsl
  then Some (Fundamentals.computeSomething impl)
  else None.

(** Invocations [first], [first + 1], ..., [first + count - 1]. *)
Fixpoint invocations (entry : nat -> list float32 -> list float32)
  (first count : nat) (data : list float32) : list float32 :=
  match count with
  | O => data
  | S count' => invocations entry (S first) count' (entry first data)
  end.

(** Overwrite [data] from word [offset] on with [src]. *)
Definition blit (offset : nat) (src data : list float32) : list float32 :=
  firstn offset data ++ src ++ skipn (offset + List.length src) data.

Definition execute (impl : wgsl_implementation) (h : heap) (c : command)
  : heap :=
  match c with
  | Draw _ _ => h
  | Dispatch (Some p) (Some g) workgroups =>
      match nth_error h p, nth_error h g with
      | Some (ComputePipeline m), Some (BindGroup b) =>
          match nth_error h m, nth_error h b with
          | Some (ShaderModule code), Some (Buffer data mapped) =>
              match compile impl code with
              | Some entry =>
                  update b (Buffer (invocations entry 0 workgroups data) mapped) h
              | None => h
              end
          | _, _ => h
          end
      | _, _ => h
      end
  | Dispatch _ _ _ => h
  | CopyBufferToBuffer src srcOffset dst dstOffset size =>
      match nth_error h src, nth_error h dst with
      | Some (Buffer from _), Some (Buffer to mapped) =>
          let words :=
            firstn (words_of_bytes size) (skipn (words_of_bytes srcOffset) from) in
          update dst (Buffer (blit (words_of_bytes dstOffset) words to) mapped) h
      | _, _ => h
      end
  end.

Definition submit (impl : wgsl_implementation) (h : heap)
  (commands : list command) : heap :=
  fold_left (execute impl) commands h.

Definition done (h : heap) : response * heap := (Returns VUndefined, h).

Definition not_a_function (h : heap) : response * heap :=
  (Raises TypeError, h).

Definition record (encoder : nat) (c : command) (h : heap) : heap :=
  match nth_error h encoder with
  | Some (CommandEncoder commands valid) =>
      update encoder (CommandEncoder (commands ++ [c]) valid) h
  | _ => h
  end.

(** A validation error while encoding. *)
Definition invalidate (encoder : nat) (h : heap) : heap :=
  match nth_error h encoder with
  | Some (CommandEncoder commands _) =>
      update encoder (CommandEncoder commands false) h
  | _ => h
  end.

Definition invoke_on (impl : wgsl_implementation) (h : heap) (id : nat)
  (o : object) (method : string) (args : list value) : response * heap :=
  match o with
  | Gpu =>
      if String.eqb method "requestAdapter" then
        alloc (Promise (VHost (List.length h))) (h ++ [Adapter])
      else if String.eqb method "getPreferredCanvasFormat" then
        (Returns (VStr "bgra8unorm"), h)
      else not_a_function h
  | Adapter =>
      if String.eqb method "requestDevice" then
        alloc (Promise (VHost (S (List.length h))))
          (h ++ [Queue; Device (List.length h)])
      else not_a_function h
  | Canvas =>
      if String.eqb method "getContext" then alloc CanvasContext h
      else not_a_function h
  | CanvasContext =>
      if String.eqb method "configure" then done h
      else if String.eqb method "getCurrentTexture" then alloc Texture h
      else not_a_function h
  | Texture =>
      if String.eqb method "createView" then alloc TextureView h
      else not_a_function h
  | Device _ =>
      if String.eqb method "createShaderModule" then
        match args with
        | VObj fields :: _ =>
            match get_field "code" fields with
            | VStr code => alloc (ShaderModule code) h
            | _ => not_a_function h
            end
        | _ => not_a_function h
        end
      else if String.eqb method "createRenderPipeline" then
        alloc RenderPipeline h
      else if String.eqb method "createComputePipeline" then
        match args with
        | VObj fields :: _ =>
            match get_field "compute" fields with
            | VObj compute =>
                match get_field "module" compute with
                | VHost m => alloc (ComputePipeline m) h
                | _ => not_a_function h
                end
            | _ => not_a_function h
            end
        | _ => not_a_function h
        end
      else if String.eqb method "createBuffer" then
        match args with
        | VObj fields :: _ =>
            match get_field "size" fields with
            | VInt size =>
                alloc (Buffer (repeat f32_zero (words_of_bytes size)) false) h
            | _ => not_a_function h
            end
        | _ => not_a_function h
        end
      else if String.eqb method "createBindGroup" then
        match args with
        | VObj fields :: _ =>
            match get_field "entries" fields with
            | VArr (VObj entry :: _) =>
                match get_field "resource" entry with
                | VObj resource =>
                    match get_field "buffer" resource with
                    | VHost b => alloc (BindGroup b) h
                    | _ => not_a_function h
                    end
                | _ => not_a_function h
                end
            | _ => not_a_function h
            end
        | _ => not_a_function h
        end
      else if String.eqb method "createCommandEncoder" then
        alloc (CommandEncoder [] true) h
      else not_a_function h
  | ComputePipeline _ =>
      if String.eqb method "getBindGroupLayout" then alloc BindGroupLayout h
      else not_a_function h
  | Queue =>
      if String.eqb method "writeBuffer" then
        match args with
        | [VHost b; VInt offset; VFloat32Array elems] =>
            match nth_error h b with
            | Some (Buffer data mapped) =>
                done (update b
                        (Buffer (blit (words_of_bytes offset) elems data) mapped) h)
            | _ => not_a_function h
            end
        | _ => not_a_function h
        end
      else if String.eqb method "submit" then
        match args with
        | [VArr [VHost c]] =>
            match nth_error h c with
            | Some (CommandBuffer commands valid) =>
                done (if valid then submit impl h commands else h)
            | _ => not_a_function h
            end
        | _ => not_a_function h
        end
      else not_a_function h
  | CommandEncoder commands valid =>
      if String.eqb method "beginRenderPass" then alloc (RenderPass id None) h
      else if String.eqb method "beginComputePass" then
        alloc (ComputePass id None None) h
      else if String.eqb method "copyBufferToBuffer" then
        match args with
        | [VHost src; VInt srcOffset; VHost dst; VInt dstOffset; VInt size] =>
            done (record id (CopyBufferToBuffer src srcOffset dst dstOffset size) h)
        | _ => not_a_function h
        end
      else if String.eqb method "finish" then
        alloc (CommandBuffer commands valid) h
      else not_a_function h
  | RenderPass encoder pipeline =>
      if String.eqb method "setPipeline" then
        match args with
        | [VHost p] => done (update id (RenderPass encoder (Some p)) h)
        | _ => not_a_function h
        end
      else if String.eqb method "draw" then
        match args with
        | [VInt vertices] => done (record encoder (Draw pipeline vertices) h)
        | _ => not_a_function h
        end
      else if String.eqb method "end" then done h
      else not_a_function h
  | ComputePass encoder pipeline bindGroup =>
      if String.eqb method "setPipeline" then
        match args with
        | [VHost p] => done (update id (ComputePass encoder (Some p) bindGroup) h)
        | _ => not_a_function h
        end
      else if String.eqb method "setBindGroup" then
        match args with
        | [VInt _; VHost g] =>
            done (update id (ComputePass encoder pipeline (Some g)) h)
        | _ => not_a_function h
        end
      else if String.eqb method "dispatchWorkgroups" then
        match args with
        | [VInt n] =>
            if ((n <? 0) || (max_GPUSize32 <? n))%Z then (Raises TypeError, h)
            else if (n <=? maxComputeWorkgroupsPerDimension)%Z then
              done (record encoder
                      (Dispatch pipeline bindGroup (Z.to_nat n)) h)
            else done (invalidate encoder h)
        | _ => not_a_function h
        end
      else if String.eqb method "end" then done h
      else not_a_function h
  | Buffer data mapped =>
      if String.eqb method "mapAsync" then
        alloc (Promise VUndefined) (update id (Buffer data true) h)
      else if String.eqb method "getMappedRange" then
        if mapped then alloc (MappedRange id) h
        else (Raises (VError "OperationError"), h)
      else if String.eqb method "unmap" then
        done (update id (Buffer data false) h)
      else not_a_function h
  | MappedRange b =>
      if String.eqb method "slice" then
        match nth_error h b with
        | Some (Buffer data true) => (Returns (VArrayBuffer data), h)
        | _ => (Returns (VArrayBuffer []), h)
        end
      else not_a_function h
  | _ => not_a_function h
  end.

Definition respond (impl : wgsl_implementation) (h : heap) (q : request)
  : response * heap :=
  match q with
  | GetProp (VGlobal name) prop =>
      if String.eqb name "navigator" && String.eqb prop "gpu"
      then (Returns (VHost 0), h)
      else done h
  | GetProp (VHost id) prop =>
      match nth_error h id with
      | Some (Device queue) =>
          if String.eqb prop "queue" then (Returns (VHost queue), h) else done h
      | Some (Buffer data _) =>
          if String.eqb prop "size" then (Returns (VInt (byteLength data)), h)
          else done h
      | _ => done h
      end
  | GetProp _ _ => done h
  | SetProp _ _ v => (Returns v, h)
  | Invoke (VGlobal name) method args =>
      if String.eqb name "document" && String.eqb method "createElement"
      then alloc Canvas h
      else not_a_function h
  | Invoke (VHost id) method args =>
      match nth_error h id with
      | Some o => invoke_on impl h id o method args
      | None => not_a_function h
      end
  | Invoke v method args =>
      (* [slice()] of a value of the script: a copy *)
      if builtin_method v method && match args with [] => true | _ => false end
      then (Returns v, h)
      else not_a_function h
  | CallGlobal fn args =>
      if String.eqb fn "alert" then done h else not_a_function h
  | Await (VHost id) =>
      match nth_error h id with
      | Some (Promise settled) => (Returns settled, h)
      | _ => (Returns (VHost id), h)
      end
  | Await v => (Returns v, h)
  end.

End Browser.

(** The f64 numbers 1, 3 and 5 of the cell [doubleGPU([1, 3, 5])]. *)
Definition num_1 : float64 := S754_finite false 4503599627370496 (-52).
Definition num_3 : float64 := S754_finite false 6755399441055744 (-51).
Definition num_5 : float64 := S754_finite false 5629499534213120 (-50).


(** ** Auxiliary definitions for the proofs *)


(** A program that lets every exception of the browser escape: when a
    request raises, the program stops with that exception. *)
Inductive uncaught {A : Type} : prog A -> Prop :=
| uncaught_ret (a : A) : uncaught (Ret a)
| uncaught_throw (e : value) : uncaught (Throw e)
| uncaught_op (q : request) (k : response -> prog A) :
    (forall e, k (Raises e) = Throw e) ->
    (forall v, uncaught (k (Returns v))) ->
    uncaught (Op q k).



Definition missing_device_message : value :=
  VStr "need a browser that supports WebGPU".


(** The browser of a page without a usable GPU: [requestAdapter] resolves
    to [null]. *)
Definition no_adapter : list response :=
  [Returns (VHost 0); Returns (VHost 1); Returns VNull].


(** A browser whose [requestAdapter] raises. *)
Definition adapter_request_fails : list response :=
  [Returns (VHost 0); Raises (VError "OperationError")].

(** ** Trace monitors *)

(** A monitor reads a trace event by event: [ok] says whether the next
    event is allowed in the current state, [next] is the state after it,
    and [fin] whether the run may end in a state with a given outcome. *)
Section Monitor.
Variable S : Type.
Variable ok : S -> event -> Prop.
Variable next : S -> event -> S.
Variable fin : S -> outcome value -> Prop.

Fixpoint accepts (s : S) (tr : list event) (o : outcome value) : Prop :=
  match tr with
  | [] => fin s o
  | e :: rest => ok s e /\ accepts (next s e) rest o
  end.

(** The program keeps to the monitor whatever the browser answers. *)
Fixpoint monitored (s : S) (p : prog value) : Prop :=
  match p with
  | Ret a => fin s (Returned a)
  | Throw e => fin s (Threw e)
  | Op q k => forall r, ok s (q, r) /\ monitored (next s (q, r)) (k r)
  end.
End Monitor.








Definition alert_request : request :=
  CallGlobal "alert" [missing_device_message].


(** A handler, for comparison: [doubleGPU] wrapped in a [try] whose
    [catch] returns [undefined]. *)
Definition guarded_doubleGPU (numbers : list float64) : prog value :=
  try_catch (Fundamentals.doubleGPU numbers) (fun _ => Ret VUndefined).

(** ** Awaited operations *)

Definition mem (m : string) (ms : list string) : bool :=
  existsb (String.eqb m) ms.

(** The methods whose result a snippet function awaits. *)
Definition awaited_methods (s : snippet) : list string :=
  match s with
  | DoubleGPU _ => ["requestAdapter"; "requestDevice"; "mapAsync"]
  | _ => ["requestAdapter"; "requestDevice"]
  end.

(** Monitor: an [await] comes right after the call whose result it
    awaits, and a call of one of [ms] that returned is awaited at once.
    The state is the previous event. *)
Definition pairing_ok (ms : list string) (prev : option event) (e : event)
  : Prop :=
  match fst e with
  | Await p =>
      exists obj m args,
        prev = Some (Invoke obj m args, Returns p) /\ mem m ms = true
  | _ => True
  end
  /\
  match prev with
  | Some (Invoke _ m _, Returns p) =>
      if mem m ms then exists ans, e = (Await p, ans) else True
  | _ => True
  end.

Definition pairing_next (prev : option event) (e : event) : option event :=
  Some e.

Definition pairing_fin (ms : list string) (prev : option event)
  (o : outcome value) : Prop :=
  match prev with
  | Some (Invoke _ m _, Returns _) => mem m ms = false
  | _ => True
  end.

(** ** The outline of a snippet function *)

(** A run that went past the device test and returned its result. *)
Definition completes (o : outcome value) : Prop :=
  exists v, o = Returned v /\ v <> VUndefined.

(** The descriptors as the functions write them. *)
Definition red_triangle_shader : value :=
  VObj [ ("label", VStr "our hardcoded red triangle shaders");
         ("code", VStr Fundamentals.red_triangle_wgsl) ].

Definition doubling_shader : value :=
  VObj [ ("label", VStr "doubling compute module");
         ("code", VStr Fundamentals.doubling_wgsl) ].

Definition render_pipeline_descriptor (vertexModule fragmentModule format : value)
  : value :=
  VObj [ ("label", VStr "our hardcoded red triangle pipeline");
         ("layout", VStr "auto");
         ("vertex", VObj [("module", vertexModule)]);
         ("fragment",
           VObj [ ("module", fragmentModule);
                  ("targets", VArr [VObj [("format", format)]]) ]) ].

Definition compute_pipeline_descriptor (module : value) : value :=
  VObj [ ("label", VStr "doubling compute pipeline");
         ("layout", VStr "auto");
         ("compute", VObj [("module", module)]) ].

Definition buffer_descriptor (label : string) (size usage : Z) : value :=
  VObj [("label", VStr label); ("size", VInt size); ("usage", VInt usage)].

(** The arguments of the [createShaderModule] calls of a trace. *)
Definition shader_descriptors (tr : list event) : list (list value) :=
  flat_map (fun e => match fst e with
                     | Invoke _ m args =>
                         if String.eqb m "createShaderModule" then [args]
                         else []
                     | _ => []
                     end) tr.

Definition same_function (s1 s2 : snippet) : bool :=
  match s1, s2 with
  | DrawTrianglesToTextures _, DrawTrianglesToTextures _ => true
  | DoubleGPU _, DoubleGPU _ => true
  | DrawTriangleWithShader _ _, DrawTriangleWithShader _ _ => true
  | _, _ => false
  end.

(** "Creates its shader modules from inline hardcoded descriptors", read
    as: two completed runs of the same function pass the same descriptors
    to [createShaderModule], whatever the arguments and the browser. *)
Definition shaders_hardcoded : Prop :=
  forall (s1 s2 : snippet),
    same_function s1 s2 = true ->
    forall (Host1 Host2 : Type)
           (respond1 : Host1 -> request -> response * Host1)
           (respond2 : Host2 -> request -> response * Host2)
           (h1 : Host1) (h2 : Host2),
      completes (result (run respond1 (snippet_prog s1) h1)) ->
      completes (result (run respond2 (snippet_prog s2) h2)) ->
      shader_descriptors (trace (run respond1 (snippet_prog s1) h1))
      = shader_descriptors (trace (run respond2 (snippet_prog s2) h2)).

(** ** What is written and what is returned *)

Definition create_canvas : request :=
  Invoke document "createElement" [VStr "canvas"].



(** ** The rendering calls *)

(** The calls by which a triangle is rendered, in the order the two
    drawing functions make them. *)
Definition rendering_methods : list string :=
  [ "configure"; "createShaderModule"; "createRenderPipeline";
    "createCommandEncoder"; "beginRenderPass"; "setPipeline"; "draw"; "end";
    "finish"; "submit" ].

Definition method_of (q : request) : string :=
  match q with
  | Invoke _ m _ => m
  | _ => ""
  end.

Definition api_calls (tr : list event) : list request :=
  filter (fun q => mem (method_of q) rendering_methods) (map fst tr).

(** The objects the browser hands out during a rendering run. *)
Record handles : Type := mkHandles {
  device : value;
  context : value;
  format : value;
  module : value;
  pipeline : value;
  view : value;
  encoder : value;
  pass : value;
  commandBuffer : value;
  queue : value
}.

(** [renderPassDescriptor] once [render] has set its view. *)
Definition render_pass_descriptor (view : value) : value :=
  VObj [ ("label", VStr "our basic canvas renderPass");
         ("colorAttachments",
           VArr [ VObj [ ("clearValue",
                           VArr [VNum num_0_3; VNum num_0_3; VNum num_0_3;
                                 VInt 1]);
                         ("loadOp", VStr "clear");
                         ("storeOp", VStr "store");
                         ("view", view) ] ]) ].

(** The rendering calls for given shader descriptors, fragment module and
    handles. *)
Definition render_calls (shaders : list value) (fragmentModule : value)
  (x : handles) : list request :=
  Invoke (context x) "configure"
    [VObj [("device", device x); ("format", format x)]]
  :: map (fun d => Invoke (device x) "createShaderModule" [d]) shaders
  ++ [ Invoke (device x) "createRenderPipeline"
         [render_pipeline_descriptor (module x) fragmentModule (format x)];
       Invoke (device x) "createCommandEncoder"
         [VObj [("label", VStr "our encoder")]];
       Invoke (encoder x) "beginRenderPass" [render_pass_descriptor (view x)];
       Invoke (pass x) "setPipeline" [pipeline x];
       Invoke (pass x) "draw" [VInt 3];
       Invoke (pass x) "end" [];
       Invoke (encoder x) "finish" [];
       Invoke (queue x) "submit" [VArr [commandBuffer x]] ].

(** The rendering calls of [drawTriangleWithShader]: those of
    [drawTrianglesToTextures] with the caller's shader descriptor(s), on a
    canvas the function creates itself. *)
Definition draws_with_shader (shader fragmentShader : value)
  (tr : list event) (o : outcome value) : Prop :=
  completes o ->
  exists x canvas,
    o = Returned canvas
    /\ In (create_canvas, Returns canvas) tr
    /\ In (Invoke (device x) "createShaderModule" [shader], Returns (module x)) tr
    /\ if truthy fragmentShader then
         exists fragmentModule,
           In (Invoke (device x) "createShaderModule" [fragmentShader],
               Returns fragmentModule) tr
           /\ api_calls tr
              = render_calls [shader; fragmentShader] fragmentModule x
       else api_calls tr = render_calls [shader] (module x) x.

(** The descriptor of the red triangle shader with another source. *)
Definition with_source (code : string) : value :=
  VObj [ ("label", VStr "our hardcoded red triangle shaders");
         ("code", VStr code) ].

(** The labels of the shader descriptors among some calls. *)
Definition shader_labels (calls : list request) : list value :=
  flat_map (fun q => match q with
                     | Invoke _ m [VObj fields] =>
                         if String.eqb m "createShaderModule"
                         then [get_field "label" fields]
                         else []
                     | _ => []
                     end) calls.

(** "The same calls as [drawTrianglesToTextures], differing only in the
    shader source string", for the rgb triangle of the page. *)
Definition rgb_differs_only_in_source : Prop :=
  forall (Host : Type) (respond : Host -> request -> response * Host)
         (h : Host),
    let r := run respond
               (InterStageVariables.drawTriangleWithShader
                  InterStageVariables.rgb_triangle_shader VUndefined) h in
    completes (result r) ->
    exists x,
      api_calls (trace r)
      = render_calls [with_source InterStageVariables.rgb_triangle_wgsl]
          (module x) x.

(** A browser that answers every request with a fresh object. *)
Definition all_answered : list response :=
  map (fun id => Returns (VHost id)) (seq 1 40).

(** ** Further code of the pages *)

(** The descriptor [drawTriangleWithFragmentShader] builds from the
    fragment source it is given. *)
Definition rgb_with_fragment (fragment : string) : value :=
  VObj [ ("label", VStr "our hardcoded rgb triangle shaders");
         ("code",
           VStr (Theme.template_literal
                   [ Theme.Cooked InterStageVariables.rgb_vertex_prefix;
                     Theme.Subst fragment;
                     Theme.Cooked InterStageVariables.rgb_vertex_suffix ])) ].

(** [descriptor.code] of a shader module descriptor. *)
Definition source_of (descriptor : value) : string :=
  match descriptor with
  | VObj fields =>
      match get_field "code" fields with
      | VStr code => code
      | _ => ""
      end
  | _ => ""
  end.

(** The values the browser answers with during a run of [doubleGPU]: the
    objects it hands out, then the answers the function does not use. *)
Record compute_handles : Type := mkCompute {
  c_gpu : value;
  c_adapterPromise : value;
  c_adapter : value;
  c_devicePromise : value;
  c_device : value;
  c_module : value;
  c_pipeline : value;
  c_workBuffer : value;
  c_queue : value;
  c_resultBuffer : value;
  c_layout : value;
  c_bindGroup : value;
  c_encoder : value;
  c_pass : value;
  c_size : value;
  c_commandBuffer : value;
  c_submitQueue : value;
  c_mapPromise : value;
  c_range : value;
  c_written : value;
  c_pipelineSet : value;
  c_groupSet : value;
  c_dispatched : value;
  c_ended : value;
  c_copied : value;
  c_submitted : value;
  c_mapped : value;
  c_copy : value;
  c_unmapped : value
}.

(** The requests of a completed run of [doubleGPU], in order. *)
Definition doubleGPU_requests (numbers : list float64) (x : compute_handles)
  : list request :=
  let input := Float32Array_from numbers in
  [ GetProp navigator "gpu";
    Invoke (c_gpu x) "requestAdapter" [];
    Await (c_adapterPromise x);
    Invoke (c_adapter x) "requestDevice" [];
    Await (c_devicePromise x);
    Invoke (c_device x) "createShaderModule" [doubling_shader];
    Invoke (c_device x) "createComputePipeline"
      [compute_pipeline_descriptor (c_module x)];
    Invoke (c_device x) "createBuffer"
      [buffer_descriptor "work buffer" (byteLength input) 140%Z];
    GetProp (c_device x) "queue";
    Invoke (c_queue x) "writeBuffer"
      [c_workBuffer x; VInt 0; VFloat32Array input];
    Invoke (c_device x) "createBuffer"
      [buffer_descriptor "result buffer" (byteLength input) 9%Z];
    Invoke (c_pipeline x) "getBindGroupLayout" [VInt 0];
    Invoke (c_device x) "createBindGroup"
      [VObj [ ("label", VStr "bindGroup for work buffer");
              ("layout", c_layout x);
              ("entries",
                VArr [VObj [ ("binding", VInt 0);
                             ("resource",
                               VObj [("buffer", c_workBuffer x)]) ]]) ]];
    Invoke (c_device x) "createCommandEncoder"
      [VObj [("label", VStr "doubling encoder")]];
    Invoke (c_encoder x) "beginComputePass"
      [VObj [("label", VStr "doubling compute pass")]];
    Invoke (c_pass x) "setPipeline" [c_pipeline x];
    Invoke (c_pass x) "setBindGroup" [VInt 0; c_bindGroup x];
    Invoke (c_pass x) "dispatchWorkgroups"
      [VInt (Z.of_nat (List.length numbers))];
    Invoke (c_pass x) "end" [];
    GetProp (c_resultBuffer x) "size";
    Invoke (c_encoder x) "copyBufferToBuffer"
      [c_workBuffer x; VInt 0; c_resultBuffer x; VInt 0; c_size x];
    Invoke (c_encoder x) "finish" [];
    GetProp (c_device x) "queue";
    Invoke (c_submitQueue x) "submit" [VArr [c_commandBuffer x]];
    Invoke (c_resultBuffer x) "mapAsync" [VInt 1];
    Await (c_mapPromise x);
    Invoke (c_resultBuffer x) "getMappedRange" [];
    Invoke (c_range x) "slice" [];
    Invoke (c_resultBuffer x) "unmap" [] ].

(** The answers to these requests, in the same order. *)
Definition doubleGPU_answers (x : compute_handles) : list value :=
  [ c_gpu x; c_adapterPromise x; c_adapter x; c_devicePromise x; c_device x;
    c_module x; c_pipeline x; c_workBuffer x; c_queue x; c_written x;
    c_resultBuffer x; c_layout x; c_bindGroup x; c_encoder x; c_pass x;
    c_pipelineSet x; c_groupSet x; c_dispatched x; c_ended x; c_size x;
    c_copied x; c_commandBuffer x; c_submitQueue x; c_submitted x;
    c_mapPromise x; c_mapped x; c_range x; c_copy x; c_unmapped x ].

(** A completed run of [doubleGPU] is made of exactly these requests, each
    argument being the answer to the request that produced it. *)
Definition compute_wiring (numbers : list float64) (tr : list event)
  (o : outcome value) : Prop :=
  completes o ->
  exists x,
    tr = combine (doubleGPU_requests numbers x)
                 (map Returns (doubleGPU_answers x)).

(** A run without any rendering call that does not complete. *)
Definition renders_nothing (tr : list event) (o : outcome value) : Prop :=
  api_calls tr = [] /\ ~ completes o.

(** The requests that create an element of the page. *)
Definition creates_element (r : request) : bool :=
  match r with
  | Invoke _ m _ => String.eqb m "createElement"
  | _ => false
  end.

(** Monitor: an element is created right after an [await] that gave a
    truthy value.  The state is the previous event. *)
Definition canvas_ok (prev : option event) (e : event) : Prop :=
  creates_element (fst e) = true ->
  exists p d, prev = Some (Await p, Returns d) /\ truthy d = true.

Definition canvas_fin (prev : option event) (o : outcome value) : Prop := True.

(** No request of a run creates an element of the page. *)
Definition no_element_created (tr : list event) (o : outcome value) : Prop :=
  Forall (fun e => creates_element (fst e) = false) tr.

(** ** The checkerboard fragment shader *)

(** [fs] of the checkerboard shaders of docs/inter-stage-variables.md:
    [let grid = vec2u(position.xy) / 8;
     let checker = (grid.x + grid.y) % 2 == 1;
     return select(red, cyan, checker);]
    The arguments are the two components of [vec2u(position.xy)], the
    pixel position as 32-bit unsigned integers; [+] wraps at 32 bits. *)
Module Checkerboard.

Definition vec4f : Type := (float32 * float32 * float32 * float32)%type.

Definition f32_one : float32 := S754_finite false 8388608 (-23).

Definition red : vec4f := (f32_one, f32_zero, f32_zero, f32_one).
Definition cyan : vec4f := (f32_zero, f32_one, f32_one, f32_one).

(** [select(f, t, cond)] is [t] when [cond] holds. *)
Definition select (f t : vec4f) (cond : bool) : vec4f :=
  if cond then t else f.

Definition u32_add (a b : Z) : Z := ((a + b) mod 2 ^ 32)%Z.

Definition fs (pixel_x pixel_y : Z) : vec4f :=
  let grid_x := (pixel_x / 8)%Z in
  let grid_y := (pixel_y / 8)%Z in
  let checker := ((u32_add grid_x grid_y) mod 2 =? 1)%Z in
  select red cyan checker.

Definition is_u32 (z : Z) : Prop := (0 <= z < 2 ^ 32)%Z.

End Checkerboard.

(** ** The snippets as scripts *)

(** A snippet function makes its requests in a fixed order, each on a
    value the browser answered an earlier request with.  Its script is
    that list of requests, as a function of the answers; the one test a
    function makes on an answer, [if (!device)], selects the rest of the
    script. *)

(** What a request was answered with ([undefined] where it raised), and
    the answers of a trace, in order. *)
Definition returned (r : response) : value :=
  match r with
  | Returns v => v
  | Raises _ => VUndefined
  end.

Definition answers (tr : list event) : list value :=
  map (fun e => returned (snd e)) tr.

Notation "a .[ i ]" := (nth i a VUndefined)
  (at level 1, left associativity, format "a .[ i ]").

(** [const adapter = await navigator.gpu.requestAdapter();
     const device = await adapter.requestDevice();]
    The device is answer 4. *)
Definition acquisition (a : list value) : list request :=
  [ GetProp navigator "gpu";
    Invoke a.[0] "requestAdapter" [];
    Await a.[1];
    Invoke a.[2] "requestDevice" [];
    Await a.[3] ].

(** The rendering calls of [drawTrianglesToTextures] and
    [drawTriangleWithShader], from [canvas.getContext("webgpu")] to
    [device.queue.submit([commandBuffer])], for the shader descriptors
    [shaders] (one, or a vertex and a fragment descriptor); [b] holds the
    answers from [getContext] on. *)
Definition rendering (canvas device : value) (shaders : list value)
  (b : list value) : list request :=
  let context := b.[0] in
  let gpu := b.[1] in
  let presentationFormat := b.[2] in
  let module := b.[4] in
  let fragmentModule := b.[3 + List.length shaders] in
  let c := skipn (4 + List.length shaders) b in
  let pipeline := c.[0] in
  let texture := c.[1] in
  let view := c.[2] in
  let encoder := c.[3] in
  let pass := c.[4] in
  let commandBuffer := c.[8] in
  let queue := c.[9] in
  [ Invoke canvas "getContext" [VStr "webgpu"];
    GetProp navigator "gpu";
    Invoke gpu "getPreferredCanvasFormat" [];
    Invoke context "configure"
      [VObj [("device", device); ("format", presentationFormat)]] ]
  ++ map (fun shader => Invoke device "createShaderModule" [shader]) shaders
  ++ [ Invoke device "createRenderPipeline"
         [render_pipeline_descriptor module fragmentModule presentationFormat];
       Invoke context "getCurrentTexture" [];
       Invoke texture "createView" [];
       Invoke device "createCommandEncoder"
         [VObj [("label", VStr "our encoder")]];
       Invoke encoder "beginRenderPass" [render_pass_descriptor view];
       Invoke pass "setPipeline" [pipeline];
       Invoke pass "draw" [VInt 3];
       Invoke pass "end" [];
       Invoke encoder "finish" [];
       GetProp device "queue";
       Invoke queue "submit" [VArr [commandBuffer]] ].

(** The shader descriptors [drawTriangleWithShader] creates modules
    from. *)
Definition shaders_of (shader fragmentShader : value) : list value :=
  shader :: (if truthy fragmentShader then [fragmentShader] else []).

(** The requests of [doubleGPU] once it has a device, up to the end of
    the compute pass; [b] holds the answers from [createShaderModule]
    on. *)
Definition compute_setup (numbers : list float64) (device : value)
  (b : list value) : list request :=
  let input := Float32Array_from numbers in
  let module := b.[0] in
  let pipeline := b.[1] in
  let workBuffer := b.[2] in
  let queue := b.[3] in
  let layout := b.[6] in
  let bindGroup := b.[7] in
  let encoder := b.[8] in
  let pass := b.[9] in
  [ Invoke device "createShaderModule" [doubling_shader];
    Invoke device "createComputePipeline" [compute_pipeline_descriptor module];
    Invoke device "createBuffer"
      [buffer_descriptor "work buffer" (byteLength input) 140%Z];
    GetProp device "queue";
    Invoke queue "writeBuffer" [workBuffer; VInt 0; VFloat32Array input];
    Invoke device "createBuffer"
      [buffer_descriptor "result buffer" (byteLength input) 9%Z];
    Invoke pipeline "getBindGroupLayout" [VInt 0];
    Invoke device "createBindGroup"
      [VObj [ ("label", VStr "bindGroup for work buffer");
              ("layout", layout);
              ("entries",
                VArr [VObj [ ("binding", VInt 0);
                             ("resource",
                               VObj [("buffer", workBuffer)]) ]]) ]];
    Invoke device "createCommandEncoder"
      [VObj [("label", VStr "doubling encoder")]];
    Invoke encoder "beginComputePass"
      [VObj [("label", VStr "doubling compute pass")]];
    Invoke pass "setPipeline" [pipeline];
    Invoke pass "setBindGroup" [VInt 0; bindGroup];
    Invoke pass "dispatchWorkgroups" [VInt (Z.of_nat (List.length numbers))];
    Invoke pass "end" [] ].

(** From the copy into the result buffer to the copy of its mapped
    range, when the result buffer (answer 5) is an object of the
    browser. *)
Definition compute_readback (device : value) (b : list value)
  : list request :=
  let workBuffer := b.[2] in
  let resultBuffer := b.[5] in
  let encoder := b.[8] in
  let size := b.[14] in
  let commandBuffer := b.[16] in
  let queue := b.[17] in
  let promise := b.[19] in
  let range := b.[21] in
  [ GetProp resultBuffer "size";
    Invoke encoder "copyBufferToBuffer"
      [workBuffer; VInt 0; resultBuffer; VInt 0; size];
    Invoke encoder "finish" [];
    GetProp device "queue";
    Invoke queue "submit" [VArr [commandBuffer]];
    Invoke resultBuffer "mapAsync" [VInt 1];
    Await promise;
    Invoke resultBuffer "getMappedRange" [];
    Invoke range "slice" [] ].

(** The requests of [doubleGPU] once it has a device.
    [resultBuffer.size] is a request when the result buffer is an object
    of the browser; read from a value of the script it is none, and
    [mapAsync], which such a value does not have, is then never called.
    The last request, [unmap], follows the construction of the
    Float32Array from the copy (answer 22). *)
Definition computing (numbers : list float64) (device : value)
  (b : list value) : list request :=
  let workBuffer := b.[2] in
  let resultBuffer := b.[5] in
  let encoder := b.[8] in
  compute_setup numbers device b
  ++ (if nullish resultBuffer then []
      else if is_host resultBuffer then
        compute_readback device b
        ++ match Float32Array_of b.[22] with
           | Some _ => [Invoke resultBuffer "unmap" []]
           | None => []
           end
      else
        let commandBuffer := b.[15] in
        let queue := b.[16] in
        [ Invoke encoder "copyBufferToBuffer"
            [ workBuffer; VInt 0; resultBuffer; VInt 0;
              own_property resultBuffer "size" ];
          Invoke encoder "finish" [];
          GetProp device "queue";
          Invoke queue "submit" [VArr [commandBuffer]] ]).

(** The script of a snippet function for the answers [a]. *)
Definition script (s : snippet) (a : list value) : list request :=
  match s with
  | DrawTrianglesToTextures canvas =>
      if is_undefined canvas then
        let a' := skipn 1 a in
        create_canvas
        :: acquisition a'
        ++ (if truthy a'.[4]
            then rendering a.[0] a'.[4] [red_triangle_shader] (skipn 5 a')
            else [alert_request])
      else
        acquisition a
        ++ (if truthy a.[4]
            then rendering canvas a.[4] [red_triangle_shader] (skipn 5 a)
            else [alert_request])
  | DoubleGPU numbers =>
      acquisition a
      ++ (if truthy a.[4] then computing numbers a.[4] (skipn 5 a)
          else [alert_request])
  | DrawTriangleWithShader shader fragmentShader =>
      acquisition a
      ++ (if truthy a.[4]
          then [create_canvas; GetProp window "devicePixelRatio"]
               ++ rendering a.[5] a.[4] (shaders_of shader fragmentShader)
                    (skipn 7 a)
          else [alert_request])
  end.

(** How the function ends once the script has been run to its end. *)
Definition script_outcome (s : snippet) (a : list value) : outcome value :=
  match s with
  | DrawTrianglesToTextures canvas =>
      if is_undefined canvas then
        if truthy a.[5] then Returned a.[0] else Returned VUndefined
      else if truthy a.[4] then Returned canvas else Returned VUndefined
  | DoubleGPU numbers =>
      if truthy a.[4] then
        let resultBuffer := a.[10] in
        if nullish resultBuffer then Threw TypeError
        else if is_host resultBuffer then
          match Float32Array_of a.[27] with
          | Some elems => Returned (VFloat32Array elems)
          | None => Threw RangeError
          end
        else Threw TypeError
      else Returned VUndefined
  | DrawTriangleWithShader _ _ =>
      if truthy a.[4] then Returned a.[5] else Returned VUndefined
  end.

(** A request the engine refuses to make: its receiver is [undefined]
    or [null], or a value of the script without the method. *)
Definition refused (q : request) : bool :=
  match q with
  | GetProp obj _ => nullish obj
  | Invoke obj method _ =>
      nullish obj || negb (is_host obj || builtin_method obj method)
  | _ => false
  end.

Definition raises (e : event) : bool :=
  match snd e with
  | Raises _ => true
  | Returns _ => false
  end.

(** The monitor of a script.  Its state holds the answers so far, or
    the exception the browser raised: each request is the next one of
    the script for the answers so far, and one the engine accepts;
    nothing follows an exception, which is the outcome; a run whose
    requests were all answered stops before the end of the script only
    by a TypeError, at a request the engine refuses, and otherwise ends
    as the script does. *)
Inductive script_state : Type :=
| Answered (acc : list value)
| Failed (e : value).

Definition script_ok (s : snippet) (st : script_state) (ev : event) : Prop :=
  match st with
  | Answered acc =>
      nth_error (script s acc) (List.length acc) = Some (fst ev)
      /\ refused (fst ev) = false
  | Failed _ => False
  end.

Definition script_next (st : script_state) (ev : event) : script_state :=
  match st with
  | Answered acc =>
      match snd ev with
      | Returns v => Answered (acc ++ [v])
      | Raises e => Failed e
      end
  | Failed e => Failed e
  end.

Definition script_end (s : snippet) (acc : list value) (o : outcome value)
  : Prop :=
  match nth_error (script s acc) (List.length acc) with
  | Some q => o = Threw TypeError /\ refused q = true
  | None => o = script_outcome s acc
  end.

Definition script_fin (s : snippet) (st : script_state) (o : outcome value)
  : Prop :=
  match st with
  | Answered acc => script_end s acc o
  | Failed e => o = Threw e
  end.

(** A run that returns has run the script for its answers to the end,
    every request answered, and returns what the script does. *)
Definition returns_at_end (s : snippet) (tr : list event) (o : outcome value)
  : Prop :=
  forall v,
    o = Returned v ->
    tr = combine (script s (answers tr)) (map Returns (answers tr))
    /\ List.length (script s (answers tr)) = List.length tr
    /\ script_outcome s (answers tr) = Returned v.

(** ** The missing device *)




(** ** Where the handles go *)








(** ** The steps of a run that returns *)

(** What [drawTrianglesToTextures] does before it asks for an adapter,
    when it is given no canvas. *)
Definition setup (s : snippet) : list request :=
  match s with
  | DrawTrianglesToTextures canvas =>
      if is_undefined canvas then [create_canvas] else []
  | _ => []
  end.

(** The answers from [navigator.gpu] on; the device is the fifth. *)
Definition acquired (s : snippet) (a : list value) : list value :=
  skipn (List.length (setup s)) a.

Definition device_of (s : snippet) (a : list value) : value :=
  (acquired s a).[4].

(** The canvas of a drawing function: the argument, or the answer to
    [document.createElement("canvas")]. *)
Definition canvas_of (s : snippet) (a : list value) : value :=
  match s with
  | DrawTrianglesToTextures canvas =>
      if is_undefined canvas then a.[0] else canvas
  | DoubleGPU _ => VUndefined
  | DrawTriangleWithShader _ _ => a.[5]
  end.

(** What a function does with its device. *)
Definition body (s : snippet) (a : list value) : list request :=
  match s with
  | DrawTrianglesToTextures _ =>
      rendering (canvas_of s a) (device_of s a) [red_triangle_shader]
        (skipn 5 (acquired s a))
  | DoubleGPU numbers =>
      compute_setup numbers a.[4] (skipn 5 a)
      ++ compute_readback a.[4] (skipn 5 a)
      ++ [Invoke (skipn 5 a).[5] "unmap" []]
  | DrawTriangleWithShader shader fragmentShader =>
      [create_canvas; GetProp window "devicePixelRatio"]
      ++ rendering a.[5] a.[4] (shaders_of shader fragmentShader) (skipn 7 a)
  end.

(** The requests of a run that returns, in order: the device is
    requested, then tested, then used. *)
Definition steps (s : snippet) (a : list value) : list request :=
  setup s
  ++ acquisition (acquired s a)
  ++ (if truthy (device_of s a) then body s a else [alert_request]).

(** What a function returns once it has used its device. *)
Definition completed_with (s : snippet) (a : list value) (v : value) : Prop :=
  match s with
  | DoubleGPU _ =>
      exists elems,
        Float32Array_of (skipn 5 a).[22] = Some elems /\ v = VFloat32Array elems
  | _ => v = canvas_of s a
  end.

Definition is_draw_or_dispatch (q : request) : bool :=
  match q with
  | Invoke _ method _ =>
      String.eqb method "draw" || String.eqb method "dispatchWorkgroups"
  | _ => false
  end.

(** The one draw or dispatch of a function, on the pass encoder
    [pass]. *)
Definition draw_or_dispatch (s : snippet) (pass : value) : request :=
  match s with
  | DoubleGPU numbers =>
      Invoke pass "dispatchWorkgroups" [VInt (Z.of_nat (List.length numbers))]
  | _ => Invoke pass "draw" [VInt 3]
  end.

(** The name a request goes by: the method, the property, the global
    function. *)
Definition name_of (q : request) : string :=
  match q with
  | GetProp _ prop | SetProp _ prop _ => prop
  | Invoke _ method _ => method
  | CallGlobal fn _ => fn
  | Await _ => "await"
  end.

(** ** The claims as worded *)

(** "(a) it first requests a GPU device" *)
Definition device_requested_first : Prop :=
  forall (s : snippet) (Host : Type)
         (respond : Host -> request -> response * Host) (h : Host),
    exists ans rest,
      trace (run respond (snippet_prog s) h)
      = (GetProp navigator "gpu", ans) :: rest.

(** The descriptors passed to [createBuffer] in a trace. *)
Definition buffer_descriptors (tr : list event) : list (list value) :=
  flat_map (fun e => match fst e with
                     | Invoke _ m args =>
                         if String.eqb m "createBuffer" then [args] else []
                     | _ => []
                     end) tr.

(** "(c) creates its ... buffers from inline hardcoded descriptors", read
    as: two completed runs of [doubleGPU] pass the same descriptors to
    [createBuffer], whatever the arguments and the browser. *)
Definition buffers_hardcoded : Prop :=
  forall (numbers1 numbers2 : list float64) (Host1 Host2 : Type)
         (respond1 : Host1 -> request -> response * Host1)
         (respond2 : Host2 -> request -> response * Host2)
         (h1 : Host1) (h2 : Host2),
    completes (result (run respond1 (Fundamentals.doubleGPU numbers1) h1)) ->
    completes (result (run respond2 (Fundamentals.doubleGPU numbers2) h2)) ->
    buffer_descriptors (trace (run respond1 (Fundamentals.doubleGPU numbers1) h1))
    = buffer_descriptors
        (trace (run respond2 (Fundamentals.doubleGPU numbers2) h2)).

(** The method calls of a trace, by name. *)
Definition method_calls (tr : list event) : list string :=
  flat_map (fun e => match fst e with
                     | Invoke _ m _ => [m]
                     | _ => []
                     end) tr.

(** What follows the [n]-th await of a trace. *)
Fixpoint after_awaits (n : nat) (tr : list event) : list event :=
  match n, tr with
  | O, _ => tr
  | _, [] => []
  | S n', (Await _, _) :: rest => after_awaits n' rest
  | _, _ :: rest => after_awaits n rest
  end.

(** "Once a device is obtained, the same fixed sequence of API calls ...
    is executed (configure, createShaderModule, createRenderPipeline,
    createCommandEncoder, beginRenderPass, setPipeline, draw(3), end,
    finish, submit)", read as: the method calls that follow the await of
    the device in a completed run are the ten listed. *)
Definition calls_as_listed : Prop :=
  forall (Host : Type) (respond : Host -> request -> response * Host)
         (h : Host) (canvas : value),
    let r := run respond (Fundamentals.drawTrianglesToTextures canvas) h in
    completes (result r) ->
    method_calls (after_awaits 2 (trace r)) = rendering_methods.

(** "When a second fragmentShader argument is supplied, the pipeline's
    fragment stage uses a second shader module created from it", read
    as: in a completed run with a second argument, a shader module is
    created from that argument. *)
Definition supplied_fragment_used : Prop :=
  forall (Host : Type) (respond : Host -> request -> response * Host)
         (h : Host) (shader fragmentShader : value),
    let r := run respond
               (InterStageVariables.drawTriangleWithShader shader
                  fragmentShader) h in
    fragmentShader <> VUndefined ->
    completes (result r) ->
    In [fragmentShader] (shader_descriptors (trace r)).

(** ** Doubling *)

(** The binary32 numbers that WGSL doubles exactly: the zeros, and the
    normal numbers (a mantissa of 24 bits) whose double is still finite.
    [S754_finite s m e] is the number [(-1)^s * m * 2^e]. *)
Definition doubles_in_range (d : float32) : Prop :=
  match d with
  | S754_zero _ => True
  | S754_finite _ m e => digits2_pos m = 24%positive /\ (-149 <= e <= 103)%Z
  | _ => False
  end.

(** [r] is twice [d]: the same sign and mantissa with the next exponent;
    twice a zero is a zero. *)
Definition is_twice (d r : float32) : Prop :=
  match d with
  | S754_zero _ => exists s, r = S754_zero s
  | S754_finite s m e => r = S754_finite s m (e + 1)
  | _ => False
  end.

(** What WGSL requires of an implementation for the products by [2.0]:
    the exact product, where it is a normal number or zero. *)
Definition doubles_exactly (impl : wgsl_implementation) : Prop :=
  forall d, doubles_in_range d -> is_twice d (wgsl_mul impl d f32_two).

(** "For every input list ... the function returns a Float32Array with
    the same length whose i-th element equals twice the f32-converted
    value", on the reference browser with the arithmetic of [impl], twice
    being the IEEE-754 product by 2. *)
Definition doubled_by (impl : wgsl_implementation) (numbers : list float64)
  : Prop :=
  exists elems,
    result (run (Browser.respond impl) (Fundamentals.doubleGPU numbers)
              Browser.initial)
    = Returned (VFloat32Array elems)
    /\ List.length elems = List.length numbers
    /\ forall i x,
         nth_error numbers i = Some x ->
         nth_error elems i = Some (f32_mul (fround x) f32_two).

(** The f64 number [2^-149], the smallest positive binary32 number, which
    is subnormal. *)
Definition tiny : float64 := S754_finite false 4503599627370496 (-201).

(** ** The invocations of a dispatch, interleaved *)

(** [data[i] = data[i] * 2.0] is a load followed by a store.  An
    invocation has not started, has loaded its element, or has stored the
    product. *)
Inductive invocation_state : Type :=
| Waiting
| Loaded (d : float32)
| Stored.

Fixpoint set_nth {A : Type} (i : nat) (x : A) (l : list A) : list A :=
  match l, i with
  | [], _ => []
  | _ :: rest, O => x :: rest
  | y :: rest, S i' => y :: set_nth i' x rest
  end.

(** The storage buffer and the invocations of a dispatch, the latter by
    their [global_invocation_id.x]. *)
Record dispatch_state : Type := mkDispatch {
  buffer : list float32;
  invocations : list invocation_state
}.

(** [dispatchWorkgroups(input.length)] on a buffer holding the input:
    one invocation for each element. *)
Definition start (data : list float32) : dispatch_state :=
  mkDispatch data (repeat Waiting (List.length data)).

(** The next memory access of invocation [i]: its load, then its
    store. *)
Definition advance (impl : wgsl_implementation) (i : nat)
  (st : dispatch_state) : dispatch_state :=
  match nth_error (invocations st) i with
  | Some Waiting =>
      match nth_error (buffer st) i with
      | Some d => mkDispatch (buffer st) (set_nth i (Loaded d) (invocations st))
      | None => st
      end
  | Some (Loaded d) =>
      mkDispatch (set_nth i (wgsl_mul impl d f32_two) (buffer st))
        (set_nth i Stored (invocations st))
  | _ => st
  end.

(** The accesses of a dispatch in the order of a schedule, which names
    the invocation of each access. *)
Definition run_schedule (impl : wgsl_implementation) (schedule : list nat)
  (st : dispatch_state) : dispatch_state :=
  fold_left (fun st i => advance impl i st) schedule st.

(** The invocations have taken [steps i] steps each. *)
Definition progress_of (impl : wgsl_implementation) (data : list float32)
  (steps : nat -> nat) (st : dispatch_state) : Prop :=
  List.length (buffer st) = List.length data
  /\ List.length (invocations st) = List.length data
  /\ forall i d,
       nth_error data i = Some d ->
       match steps i with
       | 0 => nth_error (invocations st) i = Some Waiting
              /\ nth_error (buffer st) i = Some d
       | 1 => nth_error (invocations st) i = Some (Loaded d)
              /\ nth_error (buffer st) i = Some d
       | _ => nth_error (invocations st) i = Some Stored
              /\ nth_error (buffer st) i = Some (wgsl_mul impl d f32_two)
       end.

(** * Properties of the snippets *)

Unset Implicit Arguments.

(** ** Soundness of the weakest precondition *)

(** What [wp] establishes holds of the trace and outcome of the run
    against any browser. *)
Lemma wp_run (A : Type) (p : prog A) :
  forall (Q : list event -> outcome A -> Prop),
    wp p Q ->
    forall (Host : Type) (respond : Host -> request -> response * Host)
           (h : Host),
      Q (trace (run respond p h)) (result (run respond p h)).
Proof.
  induction p as [a | e | q k IH]; intros Q Hwp Host respond h; simpl in *.
  - exact Hwp.
  - exact Hwp.
  - destruct (respond h q) as [r h']. simpl.
    apply (IH r (fun tr o => Q ((q, r) :: tr) o)). apply Hwp.
Qed.

(** Symbolic execution of a snippet against every browser: one answer at
    a time, splitting on whether the browser returns or raises and on
    the tests the snippet makes on the values it is given. *)
Ltac unfold_snippets :=
  unfold snippet_prog, Fundamentals.drawTrianglesToTextures,
    Fundamentals.doubleGPU, InterStageVariables.drawTriangleWithShader,
    Fundamentals.render, InterStageVariables.render,
    Fundamentals.fail, InterStageVariables.fail, new_Float32Array,
    invoke, get, await, call_global, perform, navigator, document, window.

Ltac reduce_wp :=
  cbn [wp bind nullish negb is_undefined is_host].

(** A device that passed the test [if (!device)] has properties. *)
Lemma truthy_not_nullish (v : value) : truthy v = true -> nullish v = false.
Proof. destruct v; simpl; intro H; try reflexivity; discriminate H. Qed.

(** A value of the script has no method other than [slice]. *)
Lemma builtin_method_other (v : value) (method : string) :
  String.eqb method "slice" = false -> builtin_method v method = false.
Proof. intro H. unfold builtin_method. rewrite H. reflexivity. Qed.

(** The test at the head of a program is decided by what is known of
    the value, or else splits the execution. *)
Ltac decide_test c k :=
  lazymatch c with
  | nullish ?v =>
      lazymatch goal with
      | T : truthy v = true |- _ => rewrite (truthy_not_nullish v T); k
      | |- _ => let E := fresh "E" in destruct c eqn:E; k
      end
  | builtin_method ?v ?m =>
      first
        [ rewrite (builtin_method_other v m eq_refl); k
        | let E := fresh "E" in destruct c eqn:E; k ]
  | _ => let E := fresh "E" in destruct c eqn:E; k
  end.

(** The test at the head of a program. *)
Ltac scrutinee p :=
  lazymatch p with
  | bind ?m _ => scrutinee m
  | match negb ?c with _ => _ end => c
  | match ?c with _ => _ end => c
  end.

Ltac exec leaf :=
  reduce_wp;
  lazymatch goal with
  | |- forall r : response, _ =>
      let v := fresh "v" in
      let e := fresh "e" in
      intros [v | e]; exec leaf
  | |- wp (Ret _) _ => leaf
  | |- wp (Throw _) _ => leaf
  | |- wp ?p _ =>
      let c := scrutinee p in decide_test c ltac:(exec leaf)
  | |- _ => leaf
  end.


(** ** Exceptions and the alert *)

(** In a run of an [uncaught] program a request that raises is the last
    one, and its exception is the outcome. *)
Lemma uncaught_run (A : Type) (p : prog A) :
  uncaught p ->
  forall (Host : Type) (respond : Host -> request -> response * Host) (h : Host)
         pre q e post,
    trace (run respond p h) = pre ++ (q, Raises e) :: post ->
    post = [] /\ result (run respond p h) = Threw e.
Proof.
  induction 1 as [a | e0 | q0 k Hraise Hret IH];
    intros Host respond h pre q e post Heq; simpl in Heq.
  - destruct pre; discriminate.
  - destruct pre; discriminate.
  - simpl. destruct (respond h q0) as [[v | e1] h']; simpl in *.
    + destruct pre as [| ev pre]; simpl in Heq; [discriminate |].
      injection Heq as _ Heq. apply (IH v Host respond h' pre q e post Heq).
    + rewrite Hraise in *. simpl in *.
      destruct pre as [| ev pre]; simpl in Heq.
      * injection Heq as _ He Hpost. subst. split; reflexivity.
      * injection Heq as _ Heq. destruct pre; discriminate.
Qed.

(** One pass over a snippet, checking at each request that the
    continuation rethrows. *)
Ltac walk :=
  cbn [bind nullish negb is_undefined is_host];
  lazymatch goal with
  | |- uncaught (Ret _) => apply uncaught_ret
  | |- uncaught (Throw _) => apply uncaught_throw
  | |- uncaught (Op _ _) =>
      apply uncaught_op; [intro; reflexivity | intro; walk]
  | |- uncaught ?p =>
      let c := scrutinee p in decide_test c walk
  end.

Lemma snippets_uncaught (s : snippet) : uncaught (snippet_prog s).
Proof. destruct s; unfold_snippets; walk. Qed.



(** ** Monitors *)

(** A monitored program's runs are accepted, whatever the browser. *)
Lemma monitored_run (S : Type) (ok : S -> event -> Prop)
  (next : S -> event -> S) (fin : S -> outcome value -> Prop)
  (p : prog value) :
  forall s,
    monitored ok next fin s p ->
    forall (Host : Type) (respond : Host -> request -> response * Host)
           (h : Host),
      accepts ok next fin s (trace (run respond p h))
        (result (run respond p h)).
Proof.
  induction p as [a | e | q k IH]; intros s Hm Host respond h; simpl in *.
  - exact Hm.
  - exact Hm.
  - destruct (respond h q) as [r h']. simpl.
    destruct (Hm r) as [Hok Hrest]. split; [exact Hok |].
    apply IH. exact Hrest.
Qed.

(** The monitor of an awaited call: from any state a returned call of
    [method] leads to [Requested]; a result that passes [test] leads to
    [Hit], where only the epilogue is accepted. *)
Section AfterAwaited.
Variable method : string.
Variable test : value -> bool.




End AfterAwaited.

(** One pass over a snippet for a monitor: [solve_ok] proves that the
    event just issued is allowed, [reduce] computes the next state. *)
Ltac follow reduce solve_ok solve_fin :=
  cbn [monitored bind nullish negb is_undefined is_host]; reduce;
  lazymatch goal with
  | |- forall r : response, _ =>
      let v := fresh "v" in
      let e := fresh "e" in
      intros [v | e];
      (split; [reduce; solve_ok | follow reduce solve_ok solve_fin])
  | |- monitored _ _ _ _ ?p =>
      let c := scrutinee p in
      decide_test c ltac:(follow reduce solve_ok solve_fin)
  | |- _ => solve_fin
  end.




(** ** Failure paths *)



Example guarded_run_swallows_failure :
  result (run scripted (guarded_doubleGPU []) adapter_request_fails)
  = Returned VUndefined.
Proof. reflexivity. Qed.

(** ** Awaits *)

(** Reading a prefix moves the monitor to the state [fold_left next]. *)
Lemma accepts_app (S : Type) (ok : S -> event -> Prop)
  (next : S -> event -> S) (fin : S -> outcome value -> Prop) :
  forall pre s tr o,
    accepts ok next fin s (pre ++ tr) o ->
    accepts ok next fin (fold_left next pre s) tr o.
Proof.
  induction pre as [| e pre IH]; intros s tr o H; simpl in *.
  - exact H.
  - destruct H as [_ H]. apply IH. exact H.
Qed.

Lemma mem_In (m : string) (ms : list string) : mem m ms = true <-> In m ms.
Proof.
  unfold mem. rewrite existsb_exists. split.
  - intros [x [Hin Heq]]. apply String.eqb_eq in Heq. subst x. exact Hin.
  - intro Hin. exists m. split; [exact Hin | apply String.eqb_refl].
Qed.

Lemma pairing_state_last (pre : list event) (x : event) (s : option event) :
  fold_left pairing_next (pre ++ [x]) s = Some x.
Proof. rewrite fold_left_app. reflexivity. Qed.

Lemma pairing_awaits (ms : list string) (tr : list event) (o : outcome value) :
  accepts (pairing_ok ms) pairing_next (pairing_fin ms) None tr o ->
  forall pre p ans post,
    tr = pre ++ (Await p, ans) :: post ->
    exists pre' obj m args,
      pre = pre' ++ [(Invoke obj m args, Returns p)] /\ In m ms.
Proof.
  intros H pre p ans post ->.
  apply accepts_app in H. destruct H as [[Hok _] _]. simpl in Hok.
  destruct Hok as [obj [m [args [Hprev Hmem]]]].
  destruct pre as [| e pre] using rev_ind.
  - discriminate Hprev.
  - rewrite pairing_state_last in Hprev. injection Hprev as ->.
    exists pre, obj, m, args. split; [reflexivity | apply mem_In; exact Hmem].
Qed.

Lemma pairing_awaited (ms : list string) (tr : list event) (o : outcome value) :
  accepts (pairing_ok ms) pairing_next (pairing_fin ms) None tr o ->
  forall pre obj m args p post,
    tr = pre ++ (Invoke obj m args, Returns p) :: post ->
    In m ms ->
    exists ans post', post = (Await p, ans) :: post'.
Proof.
  intros H pre obj m args p post -> Hin.
  apply mem_In in Hin.
  apply accepts_app in H. destruct H as [_ H]. unfold pairing_next at 2 in H.
  destruct post as [| e post]; simpl in H.
  - rewrite Hin in H. discriminate H.
  - destruct H as [[_ Hnext] _]. rewrite Hin in Hnext.
    destruct Hnext as [ans ->]. exists ans, post. reflexivity.
Qed.

Ltac reduce_pairing :=
  cbn [pairing_ok pairing_next pairing_fin fst snd mem existsb orb
       String.eqb Ascii.eqb Bool.eqb awaited_methods].

Ltac solve_pairing :=
  split;
  [ first [exact I | do 3 eexists; split; reflexivity]
  | first [exact I | eexists; reflexivity] ].

Lemma snippets_pairing (s : snippet) :
  monitored (pairing_ok (awaited_methods s)) pairing_next
    (pairing_fin (awaited_methods s)) None (snippet_prog s).
Proof.
  destruct s; unfold_snippets.
  all: follow reduce_pairing solve_pairing ltac:(first [exact I | reflexivity]).
Qed.

(** C2.  In every snippet function an [await] is applied only to the
    value just returned by [requestAdapter], by [requestDevice] or, in
    [doubleGPU] alone, by [mapAsync]; nothing comes between the call and
    its [await], and each of these calls is awaited as soon as it
    returns. *)
Theorem only_acquisition_and_mapping_awaited :
  forall (Host : Type) (respond : Host -> request -> response * Host)
         (h : Host) (s : snippet),
    let tr := trace (run respond (snippet_prog s) h) in
    (forall pre p ans post,
        tr = pre ++ (Await p, ans) :: post ->
        exists pre' obj m args,
          pre = pre' ++ [(Invoke obj m args, Returns p)]
          /\ In m (awaited_methods s))
    /\ (forall pre obj m args p post,
           tr = pre ++ (Invoke obj m args, Returns p) :: post ->
           In m (awaited_methods s) ->
           exists ans post', post = (Await p, ans) :: post').
Proof.
  intros Host respond h s tr.
  pose proof (@monitored_run _ _ _ _ _ _ (snippets_pairing s) _ respond h) as H.
  split.
  - exact (pairing_awaits _ _ _ H).
  - exact (pairing_awaited _ _ _ H).
Qed.

(** The first [await] of [doubleGPU]. *)
Lemma awaited_witness :
  exists pre' obj m args,
    [(GetProp navigator "gpu", Returns (VHost 0));
     (Invoke (VHost 0) "requestAdapter" [], Returns (VHost 1))]
    = pre' ++ [(Invoke obj m args, Returns (VHost 1))]
    /\ In m (awaited_methods (DoubleGPU [])).
Proof.
  exact (proj1 (@only_acquisition_and_mapping_awaited _ scripted no_adapter
                  (DoubleGPU []))
           [(GetProp navigator "gpu", Returns (VHost 0));
            (Invoke (VHost 0) "requestAdapter" [], Returns (VHost 1))]
           (VHost 1) (Returns VNull) [] eq_refl).
Defined.

Ltac dismiss_incomplete :=
  let v := fresh "v" in
  let Hv := fresh "Hv" in
  let Hu := fresh "Hu" in
  intros [v [Hv Hu]];
  first [ discriminate Hv
        | injection Hv as Hv; subst v; exfalso; apply Hu; reflexivity ].

Ltac in_trace := solve [simpl; repeat first [left; reflexivity | right]].

(** ** The rendering calls *)

Ltac compute_calls :=
  cbv [api_calls render_calls filter map fst app method_of mem existsb orb
       rendering_methods String.eqb Ascii.eqb Bool.eqb
       device context format module pipeline view encoder pass commandBuffer
       queue red_triangle_shader render_pipeline_descriptor
       render_pass_descriptor
       Fundamentals.set_view Fundamentals.renderPassDescriptor
       InterStageVariables.set_view InterStageVariables.renderPassDescriptor
       get_field set_field].

Ltac leaf_shader :=
  cbv beta; unfold draws_with_shader;
  first
    [ dismiss_incomplete
    | intros _;
      eexists (mkHandles _ _ _ _ _ _ _ _ _ _); eexists;
      split; [reflexivity |];
      split; [in_trace |];
      split; [in_trace |];
      match goal with
      | H : truthy ?f = _ |- context [truthy ?f] => rewrite H
      end;
      first
        [ compute_calls; reflexivity
        | eexists; split; [in_trace | compute_calls; reflexivity] ] ].

Lemma shader_calls (shader fragmentShader : value) :
  wp (InterStageVariables.drawTriangleWithShader shader fragmentShader)
    (draws_with_shader shader fragmentShader).
Proof. unfold_snippets. exec leaf_shader. Qed.

(** ** The theme's transform *)

Lemma string_length_append (s1 s2 : string) :
  String.length (s1 ++ s2)%string = String.length s1 + String.length s2.
Proof.
  induction s1 as [| a s1 IH]; simpl; [reflexivity | rewrite IH; reflexivity].
Qed.

(** C10.  For every string [c], [braces c] is ["(() => "], then [c], then
    [")()"]: the text of an arrow function without parameters whose body
    is [c], called at once without arguments.  The result is ten
    characters longer than [c]. *)
Theorem braces_wraps_in_called_arrow :
  forall c : string,
    Theme.braces c = ("(() => " ++ c ++ ")()")%string
    /\ String.length (Theme.braces c) = String.length c + 10.
Proof.
  intro c. unfold Theme.braces. simpl Theme.template_literal. split.
  - reflexivity.
  - simpl. rewrite string_length_append. simpl. lia.
Qed.

(** The braces cells of the pages start with [{] and end with [}]; the
    transform turns such a block into the body of the arrow function. *)
Example braces_on_block :
  Theme.braces "{ return 1; }" = "(() => { return 1; })()".
Proof. reflexivity. Qed.

(** * Further properties of the pages' code *)

(** ** Template literals *)

Lemma substring_skip (a rest : string) (n : nat) :
  substring (String.length a) n (a ++ rest)%string = substring 0 n rest.
Proof. induction a as [| c a IH]; simpl; [reflexivity | exact IH]. Qed.

Lemma substring_take (s rest : string) :
  substring 0 (String.length s) (s ++ rest)%string = s.
Proof.
  induction s as [| c s IH]; simpl.
  - destruct rest; reflexivity.
  - rewrite IH. reflexivity.
Qed.

(** The substitution of a three-part template literal can be read back
    from the result. *)
Lemma template_substitution_recovered (before s after : string) :
  substring (String.length before) (String.length s)
    (Theme.template_literal
       [Theme.Cooked before; Theme.Subst s; Theme.Cooked after]) = s.
Proof.
  simpl. rewrite substring_skip. apply substring_take.
Qed.

Lemma template_length (before s after : string) :
  String.length
    (Theme.template_literal
       [Theme.Cooked before; Theme.Subst s; Theme.Cooked after])
  = String.length before + String.length s + String.length after.
Proof.
  simpl. rewrite !string_length_append. simpl. lia.
Qed.

(** Two results of one template have equal substitutions. *)
Lemma template_injective (before after s s' : string) :
  Theme.template_literal [Theme.Cooked before; Theme.Subst s; Theme.Cooked after]
  = Theme.template_literal
      [Theme.Cooked before; Theme.Subst s'; Theme.Cooked after] ->
  s = s'.
Proof.
  intro Heq.
  assert (Hlen : String.length s = String.length s').
  { apply (f_equal String.length) in Heq. rewrite !template_length in Heq. lia. }
  rewrite <- (template_substitution_recovered before s after), Heq, Hlen.
  apply template_substitution_recovered.
Qed.

(** X1.  The code given to [braces] can be read back from its result:
    it is the substring of the result that starts at position 7 and has
    the length of the code; so [braces] maps different codes to
    different texts. *)
Theorem braces_code_recovered :
  forall c : string,
    substring 7 (String.length c) (Theme.braces c) = c
    /\ forall c', Theme.braces c = Theme.braces c' -> c = c'.
Proof.
  intro c. split.
  - exact (template_substitution_recovered "(() => " c ")()").
  - intros c' Heq. exact (template_injective "(() => " ")()" c c' Heq).
Qed.

Lemma braces_code_recovered_witness :
  substring 7 13 (Theme.braces "{ return 1; }") = "{ return 1; }"
  /\ "{ return 1; }" = "{ return 1; }".
Proof.
  split.
  - exact (proj1 (braces_code_recovered "{ return 1; }")).
  - exact (proj2 (braces_code_recovered "{ return 1; }") "{ return 1; }"
             eq_refl).
Defined.

(** ** [drawTriangleWithFragmentShader] *)

Lemma fragment_program (fragment : string) :
  InterStageVariables.drawTriangleWithFragmentShader fragment
  = InterStageVariables.drawTriangleWithShader (rgb_with_fragment fragment)
      VUndefined.
Proof. reflexivity. Qed.

(** X2.  A completed run of [drawTriangleWithFragmentShader], on any
    browser and for any fragment source, makes the rendering calls of
    [drawTrianglesToTextures] with one shader module, created from the
    descriptor labelled "our hardcoded rgb triangle shaders" whose source
    is the rgb vertex shader followed by the fragment; the module serves
    both stages of the pipeline. *)
Theorem fragment_variant_calls :
  forall (Host : Type) (respond : Host -> request -> response * Host)
         (h : Host) (fragment : string),
    let r := run respond
               (InterStageVariables.drawTriangleWithFragmentShader fragment) h in
    completes (result r) ->
    exists x,
      api_calls (trace r)
      = render_calls [rgb_with_fragment fragment] (module x) x
      /\ In (Invoke (device x) "createShaderModule"
               [rgb_with_fragment fragment], Returns (module x)) (trace r).
Proof.
  intros Host respond h fragment r Hc. unfold r in *.
  rewrite fragment_program in *.
  destruct (wp_run _ _ _ (shader_calls (rgb_with_fragment fragment) VUndefined)
              _ respond h Hc) as [x [created [_ [_ [Hmod Hcalls]]]]].
  exists x. split; [exact Hcalls | exact Hmod].
Qed.

Lemma fragment_variant_witness :
  exists x,
    api_calls (trace (run (Browser.respond ieee)
                        (InterStageVariables.drawTriangleWithFragmentShader
                           "@fragment fn fs() -> @location(0) vec4f { return vec4f(1); }")
                        Browser.initial))
    = render_calls
        [rgb_with_fragment
           "@fragment fn fs() -> @location(0) vec4f { return vec4f(1); }"]
        (module x) x
    /\ In (Invoke (device x) "createShaderModule"
             [rgb_with_fragment
                "@fragment fn fs() -> @location(0) vec4f { return vec4f(1); }"],
           Returns (module x))
         (trace (run (Browser.respond ieee)
                   (InterStageVariables.drawTriangleWithFragmentShader
                      "@fragment fn fs() -> @location(0) vec4f { return vec4f(1); }")
                   Browser.initial)).
Proof.
  apply (fragment_variant_calls _ (Browser.respond ieee) Browser.initial).
  exists (VHost 6). split; [vm_compute; reflexivity | discriminate].
Defined.

(** X3.  The fragment source given to [drawTriangleWithFragmentShader]
    can be read back from the source of the descriptor it builds, after
    the rgb vertex shader; different fragments give different shader
    sources. *)
Theorem fragment_source_recovered :
  forall fragment : string,
    substring (String.length InterStageVariables.rgb_vertex_prefix)
      (String.length fragment) (source_of (rgb_with_fragment fragment))
    = fragment
    /\ forall fragment',
        rgb_with_fragment fragment = rgb_with_fragment fragment' ->
        fragment = fragment'.
Proof.
  intro fragment. split.
  - exact (template_substitution_recovered _ fragment _).
  - intros fragment' Heq.
    apply (f_equal source_of) in Heq.
    exact (template_injective _ _ fragment fragment' Heq).
Qed.

Lemma fragment_source_recovered_witness :
  substring (String.length InterStageVariables.rgb_vertex_prefix) 2
    (source_of (rgb_with_fragment "fs")) = "fs"
  /\ "fs" = "fs".
Proof.
  split.
  - exact (proj1 (fragment_source_recovered "fs")).
  - exact (proj2 (fragment_source_recovered "fs") "fs" eq_refl).
Defined.

(** ** The requests of [doubleGPU] *)

Ltac leaf_wiring numbers :=
  cbv beta; unfold compute_wiring;
  first
    [ dismiss_incomplete
    | intros _;
      eexists (mkCompute _ _ _ _ _ _ _ _ _ _ _ _ _ _ _ _ _ _ _
                         _ _ _ _ _ _ _ _ _ _);
      replace (List.length (Float32Array_from numbers))
        with (List.length numbers)
        by (unfold Float32Array_from; rewrite length_map; reflexivity);
      reflexivity ].

Lemma doubleGPU_wiring (numbers : list float64) :
  wp (Fundamentals.doubleGPU numbers) (compute_wiring numbers).
Proof. unfold_snippets. exec ltac:(leaf_wiring numbers). Qed.

(** X6.  Every completed run of [doubleGPU], on any browser, is made of
    the 29 requests of [doubleGPU_requests], in that order, each argument
    being the answer to the request that produced it: the buffer that
    receives the input, that is bound at binding 0 and that is the source
    of the copy is the object returned for the work buffer; the
    destination of the copy is the object returned for the result buffer,
    the one that is then mapped, read through a [slice] of its mapped
    range and unmapped last; both buffers have the byte length of the
    input, the copy has the size the browser reports for the result
    buffer, and the dispatch has one workgroup for each number. *)
Theorem doubleGPU_request_sequence :
  forall (Host : Type) (respond : Host -> request -> response * Host)
         (h : Host) (numbers : list float64),
    let r := run respond (Fundamentals.doubleGPU numbers) h in
    completes (result r) ->
    exists x,
      trace r = combine (doubleGPU_requests numbers x)
                        (map Returns (doubleGPU_answers x)).
Proof.
  intros Host respond h numbers r.
  exact (wp_run _ _ _ (doubleGPU_wiring numbers) _ respond h).
Qed.

Lemma doubleGPU_request_witness :
  exists x,
    trace (run (Browser.respond ieee)
             (Fundamentals.doubleGPU [num_1; num_3; num_5])
             Browser.initial)
    = combine (doubleGPU_requests [num_1; num_3; num_5] x)
              (map Returns (doubleGPU_answers x)).
Proof.
  apply (doubleGPU_request_sequence _ (Browser.respond ieee) Browser.initial
           [num_1; num_3; num_5]).
  eexists. split; [vm_compute; reflexivity | discriminate].
Defined.

(** ** The canvas *)

Ltac leaf_renders_nothing :=
  cbv beta; unfold renders_nothing;
  split;
  [ reflexivity
  | let v := fresh "v" in
    let Hv := fresh "Hv" in
    let Hu := fresh "Hu" in
    intros [v [Hv Hu]];
    first [ discriminate Hv
          | injection Hv as Hv; subst v; apply Hu; reflexivity ] ].

Lemma null_canvas_renders_nothing :
  wp (Fundamentals.drawTrianglesToTextures VNull) renders_nothing.
Proof. unfold_snippets. exec leaf_renders_nothing. Qed.

(** X7.  [drawTrianglesToTextures(null)] never renders: the default
    canvas replaces only a missing argument, so on every browser the run
    makes none of the rendering calls and does not complete (it throws,
    or returns [undefined] after the alert). *)
Theorem null_canvas_never_renders :
  forall (Host : Type) (respond : Host -> request -> response * Host)
         (h : Host),
    let r := run respond (Fundamentals.drawTrianglesToTextures VNull) h in
    api_calls (trace r) = [] /\ ~ completes (result r).
Proof.
  intros Host respond h r.
  exact (wp_run _ _ _ null_canvas_renders_nothing _ respond h).
Qed.

(** On the reference browser the device is acquired and the call of
    [getContext] on [null] then throws. *)
Example null_canvas_on_browser :
  result (run (Browser.respond ieee) (Fundamentals.drawTrianglesToTextures VNull)
            Browser.initial) = Threw TypeError.
Proof. reflexivity. Qed.

Ltac leaf_no_element :=
  cbv beta; unfold no_element_created;
  repeat (apply Forall_cons; [reflexivity |]); apply Forall_nil.

Lemma given_canvas_creates_none (canvas : value) :
  is_undefined canvas = false ->
  wp (Fundamentals.drawTrianglesToTextures canvas) no_element_created.
Proof.
  intros Hgiven. unfold_snippets. rewrite Hgiven.
  exec leaf_no_element.
Qed.

(** X8.  [drawTrianglesToTextures] settles its canvas before anything
    else and creates one only when it is given none: on every browser,
    when the argument is [undefined] the first request of the run is
    [document.createElement("canvas")], made before the adapter is
    requested and so also in the runs that end with the alert or an
    exception; for any other argument no request of the run, however it
    ends, creates an element. *)
Theorem canvas_created_only_by_default :
  forall (Host : Type) (respond : Host -> request -> response * Host)
         (h : Host) (canvas : value),
    let r := run respond (Fundamentals.drawTrianglesToTextures canvas) h in
    (is_undefined canvas = true ->
     exists ans rest, trace r = (create_canvas, ans) :: rest)
    /\ (is_undefined canvas = false ->
        forall e, In e (trace r) -> creates_element (fst e) = false).
Proof.
  intros Host respond h canvas r. split.
  - intros Hdefault. subst r.
    unfold Fundamentals.drawTrianglesToTextures, create_canvas.
    rewrite Hdefault. simpl.
    destruct (respond h (Invoke document "createElement" [VStr "canvas"]))
      as [ans h'].
    eexists. eexists. reflexivity.
  - intros Hgiven.
    apply Forall_forall.
    exact (wp_run _ _ _ (given_canvas_creates_none canvas Hgiven) _ respond h).
Qed.

Lemma canvas_created_only_by_default_witness :
  (exists ans rest,
      trace (run (Browser.respond ieee)
               (Fundamentals.drawTrianglesToTextures VUndefined)
               Browser.initial)
      = (create_canvas, ans) :: rest)
  /\ (forall e,
        In e (trace (run (Browser.respond ieee)
                       (Fundamentals.drawTrianglesToTextures VNull)
                       Browser.initial)) ->
        creates_element (fst e) = false).
Proof.
  split.
  - exact (proj1 (canvas_created_only_by_default _ (Browser.respond ieee)
                    Browser.initial VUndefined) eq_refl).
  - exact (proj2 (canvas_created_only_by_default _ (Browser.respond ieee)
                    Browser.initial VNull) eq_refl).
Defined.

Ltac reduce_canvas :=
  cbn [canvas_ok creates_element pairing_next canvas_fin fst snd
       String.eqb Ascii.eqb Bool.eqb].

Ltac solve_canvas :=
  let H := fresh "H" in
  intros H;
  first [ discriminate H
        | do 2 eexists; split; [reflexivity | assumption] ].

Lemma shader_canvas_monitored (shader fragmentShader : value) :
  monitored canvas_ok pairing_next canvas_fin None
    (InterStageVariables.drawTriangleWithShader shader fragmentShader).
Proof.
  unfold_snippets.
  follow reduce_canvas solve_canvas ltac:(exact I).
Qed.

(** X9.  [drawTriangleWithShader] creates its canvas only once it holds
    a device: on every browser, a call of [createElement] comes right
    after an [await] that resolved to a truthy value, so that no canvas
    is created on the alert path or when the acquisition fails. *)
Theorem shader_canvas_after_device :
  forall (Host : Type) (respond : Host -> request -> response * Host)
         (h : Host) (shader fragmentShader : value) pre ans post,
    trace (run respond
             (InterStageVariables.drawTriangleWithShader shader fragmentShader)
             h)
    = pre ++ (create_canvas, ans) :: post ->
    exists pre' p d,
      pre = pre' ++ [(Await p, Returns d)] /\ truthy d = true.
Proof.
  intros Host respond h shader fragmentShader pre ans post Htr.
  pose proof (monitored_run _ _ _ _ _ _
                (shader_canvas_monitored shader fragmentShader) _ respond h)
    as Hacc.
  rewrite Htr in Hacc. apply accepts_app in Hacc.
  destruct Hacc as [Hok _].
  destruct (Hok eq_refl) as [p [d [Hprev Hd]]].
  destruct pre as [| e pre _] using rev_ind.
  - discriminate Hprev.
  - rewrite pairing_state_last in Hprev. injection Hprev as ->.
    exists pre, p, d. split; [reflexivity | exact Hd].
Qed.

Lemma shader_canvas_witness :
  exists pre' p d,
    [(GetProp navigator "gpu", Returns (VHost 0));
     (Invoke (VHost 0) "requestAdapter" [], Returns (VHost 2));
     (Await (VHost 2), Returns (VHost 1));
     (Invoke (VHost 1) "requestDevice" [], Returns (VHost 5));
     (Await (VHost 5), Returns (VHost 4))]
    = pre' ++ [(Await p, Returns d)] /\ truthy d = true.
Proof.
  refine (shader_canvas_after_device _ (Browser.respond ieee) Browser.initial
            InterStageVariables.vsModule InterStageVariables.fsModule
            _ (Returns (VHost 6)) _ _).
  vm_compute. reflexivity.
Defined.

(** ** The checkerboard *)

Lemma red_not_cyan : Checkerboard.red <> Checkerboard.cyan.
Proof. discriminate. Qed.

Lemma grid_sum_parity (x y : Z) :
  Checkerboard.is_u32 x -> Checkerboard.is_u32 y ->
  (Checkerboard.u32_add (x / 8) (y / 8) mod 2 = (x / 8 + y / 8) mod 2)%Z.
Proof.
  unfold Checkerboard.is_u32, Checkerboard.u32_add. intros Hx Hy.
  rewrite (Z.mod_small (x / 8 + y / 8) (2 ^ 32)); [reflexivity |].
  change (2 ^ 32)%Z with 4294967296%Z in *.
  assert (0 <= x / 8)%Z by (apply Z.div_pos; lia).
  assert (0 <= y / 8)%Z by (apply Z.div_pos; lia).
  assert (x / 8 < 536870912)%Z by (apply Z.div_lt_upper_bound; lia).
  assert (y / 8 < 536870912)%Z by (apply Z.div_lt_upper_bound; lia).
  lia.
Qed.

Lemma fs_cyan_iff (x y : Z) :
  Checkerboard.is_u32 x -> Checkerboard.is_u32 y ->
  (Checkerboard.fs x y = Checkerboard.cyan <-> ((x / 8 + y / 8) mod 2 = 1)%Z)
  /\ (Checkerboard.fs x y = Checkerboard.red <-> ((x / 8 + y / 8) mod 2 = 0)%Z).
Proof.
  intros Hx Hy. unfold Checkerboard.fs, Checkerboard.select.
  rewrite (grid_sum_parity x y Hx Hy).
  pose proof (Z.mod_pos_bound (x / 8 + y / 8) 2 eq_refl) as Hb.
  destruct (Z.eqb_spec ((x / 8 + y / 8) mod 2) 1) as [E | E].
  - rewrite E. split; split; intros H; try reflexivity; try discriminate H.
  - split; split; intros H; try reflexivity; try discriminate H; lia.
Qed.

(** X10.  The fragment shader [fs] of the checkerboard cells paints
    squares of 8 by 8 pixels: for pixel coordinates that are 32-bit
    unsigned integers, the colour is cyan exactly when the sum of the two
    cell indices [x / 8] and [y / 8] is odd and red otherwise (the 32-bit
    addition never wraps), two pixels of the same cell have the same
    colour, and moving 8 pixels along either axis changes the colour. *)
Theorem checkerboard_cells :
  forall x y : Z,
    Checkerboard.is_u32 x -> Checkerboard.is_u32 y ->
    (Checkerboard.fs x y = Checkerboard.cyan
     <-> Z.odd (x / 8 + y / 8) = true)
    /\ (Checkerboard.fs x y = Checkerboard.red
        <-> Z.even (x / 8 + y / 8) = true)
    /\ (forall x' y' : Z,
          Checkerboard.is_u32 x' -> Checkerboard.is_u32 y' ->
          (x' / 8 = x / 8)%Z -> (y' / 8 = y / 8)%Z ->
          Checkerboard.fs x' y' = Checkerboard.fs x y)
    /\ (Checkerboard.is_u32 (x + 8) ->
        Checkerboard.fs (x + 8) y <> Checkerboard.fs x y)
    /\ (Checkerboard.is_u32 (y + 8) ->
        Checkerboard.fs x (y + 8) <> Checkerboard.fs x y).
Proof.
  intros x y Hx Hy.
  destruct (fs_cyan_iff x y Hx Hy) as [Hc Hr].
  split; [| split; [| split; [| split]]].
  - rewrite Hc. rewrite Zodd_mod. split; intros H.
    + rewrite H. reflexivity.
    + apply Z.eqb_eq. exact H.
  - rewrite Hr. rewrite Zeven_mod. split; intros H.
    + rewrite H. reflexivity.
    + apply Z.eqb_eq. exact H.
  - intros x' y' Hx' Hy' Ex Ey.
    unfold Checkerboard.fs. rewrite Ex, Ey. reflexivity.
  - intros Hx'.
    destruct (fs_cyan_iff (x + 8) y Hx' Hy) as [Hc' Hr'].
    replace ((x + 8) / 8)%Z with (x / 8 + 1)%Z in Hc', Hr'
      by (replace (x + 8)%Z with (x + 1 * 8)%Z by lia;
          rewrite Z.div_add by lia; reflexivity).
    pose proof (Z.mod_pos_bound (x / 8 + y / 8) 2 eq_refl) as Hb.
    assert (((x / 8 + 1 + y / 8) mod 2 = 1 - (x / 8 + y / 8) mod 2)%Z) as Hflip
      by (clear; generalize (x / 8)%Z (y / 8)%Z; intros a b;
          Z.div_mod_to_equations; lia).
    intros Heq.
    assert ((x / 8 + y / 8) mod 2 = 0 \/ (x / 8 + y / 8) mod 2 = 1)%Z
      as [E | E] by lia.
    + apply Hr in E. rewrite E in Heq. apply Hr' in Heq. apply Hr in E. lia.
    + apply Hc in E. rewrite E in Heq. apply Hc' in Heq. apply Hc in E. lia.
  - intros Hy'.
    destruct (fs_cyan_iff x (y + 8) Hx Hy') as [Hc' Hr'].
    replace ((y + 8) / 8)%Z with (y / 8 + 1)%Z in Hc', Hr'
      by (replace (y + 8)%Z with (y + 1 * 8)%Z by lia;
          rewrite Z.div_add by lia; reflexivity).
    pose proof (Z.mod_pos_bound (x / 8 + y / 8) 2 eq_refl) as Hb.
    assert (((x / 8 + (y / 8 + 1)) mod 2 = 1 - (x / 8 + y / 8) mod 2)%Z)
      as Hflip
      by (clear; generalize (x / 8)%Z (y / 8)%Z; intros a b;
          Z.div_mod_to_equations; lia).
    intros Heq.
    assert ((x / 8 + y / 8) mod 2 = 0 \/ (x / 8 + y / 8) mod 2 = 1)%Z
      as [E | E] by lia.
    + apply Hr in E. rewrite E in Heq. apply Hr' in Heq. apply Hr in E. lia.
    + apply Hc in E. rewrite E in Heq. apply Hc' in Heq. apply Hc in E. lia.
Qed.

Lemma checkerboard_witness :
  Checkerboard.fs 20 3 <> Checkerboard.fs 12 3
  /\ Checkerboard.fs 12 3 = Checkerboard.cyan.
Proof.
  assert (Checkerboard.is_u32 12) as H12 by (unfold Checkerboard.is_u32; lia).
  assert (Checkerboard.is_u32 3) as H3 by (unfold Checkerboard.is_u32; lia).
  assert (Checkerboard.is_u32 (12 + 8)) as H20
    by (unfold Checkerboard.is_u32; lia).
  destruct (checkerboard_cells 12 3 H12 H3) as [Hc [_ [_ [Hx _]]]].
  split.
  - exact (Hx H20).
  - apply Hc. reflexivity.
Defined.

(** ** The scripts *)

Ltac rewrite_known :=
  repeat match goal with
         | H : ?t = _ |- context [?t] => rewrite H
         | T : truthy ?v = true |- context [nullish ?v] =>
             rewrite (truthy_not_nullish v T)
         end.

Ltac reduce_script :=
  cbn [script_ok script_next script_fin script_end
       answers map returned snd fst List.length existsb raises orb andb negb
       nth nth_error skipn firstn app Nat.add Nat.ltb Nat.leb
       truthy nullish is_host is_undefined refused].

Ltac unfold_script :=
  unfold script_end, script, script_outcome, acquisition, computing,
    compute_setup, compute_readback, rendering,
    shaders_of, navigator, document, window, create_canvas, alert_request,
    missing_device_message.

Ltac settle_script :=
  unfold_script;
  repeat (progress (reduce_script; rewrite_known));
  try change (Float32Array_of VUndefined) with (Some (@nil float32));
  reduce_script;
  cbn [builtin_method String.eqb Ascii.eqb Bool.eqb andb orb negb].

Ltac script_step :=
  settle_script; split; reflexivity.

Ltac script_done :=
  settle_script; first [reflexivity | split; reflexivity].

Ltac script_length numbers :=
  replace (List.length (Float32Array_from numbers))
    with (List.length numbers)
    by (unfold Float32Array_from; rewrite length_map; reflexivity).

(** Every snippet keeps to its script, whatever the browser answers. *)
Lemma snippets_keep_to_script (s : snippet) :
  monitored (script_ok s) script_next (script_fin s) (Answered [])
    (snippet_prog s).
Proof.
  destruct s as [canvas | numbers | shader fragmentShader]; unfold_snippets.
  - follow reduce_script script_step script_done.
  - script_length numbers.
    follow reduce_script script_step script_done.
  - follow reduce_script script_step script_done.
Qed.

Ltac leaf_returns_at_end :=
  cbv beta; unfold returns_at_end;
  let v := fresh "v" in
  let Hv := fresh "Hv" in
  intros v Hv;
  first
    [ discriminate Hv
    | injection Hv as Hv; subst v;
      settle_script; repeat split; reflexivity ].

Lemma snippets_return_at_end (s : snippet) :
  wp (snippet_prog s) (returns_at_end s).
Proof.
  destruct s as [canvas | numbers | shader fragmentShader]; unfold_snippets.
  - exec leaf_returns_at_end.
  - script_length numbers.
    exec leaf_returns_at_end.
  - exec leaf_returns_at_end.
Qed.


Lemma answers_app (tr1 tr2 : list event) :
  answers (tr1 ++ tr2) = answers tr1 ++ answers tr2.
Proof. apply map_app. Qed.

Lemma answers_length (tr : list event) :
  List.length (answers tr) = List.length tr.
Proof. apply length_map. Qed.

(** What the monitor of a script accepts. *)
Lemma script_accepts (s : snippet) :
  forall (tr : list event) (acc : list value) (o : outcome value),
    accepts (script_ok s) script_next (script_fin s) (Answered acc) tr o ->
    (forall pre ev post,
        tr = pre ++ ev :: post ->
        existsb raises pre = false
        /\ nth_error (script s (acc ++ answers pre))
             (List.length (acc ++ answers pre)) = Some (fst ev)
        /\ refused (fst ev) = false)
    /\ (forall pre q e, tr = pre ++ [(q, Raises e)] -> o = Threw e)
    /\ (existsb raises tr = false -> script_end s (acc ++ answers tr) o).
Proof.
  induction tr as [| [q r] tr IH]; intros acc o Hacc.
  - simpl in Hacc. split; [| split].
    + intros pre ev post Heq. destruct pre; discriminate Heq.
    + intros pre q e Heq. destruct pre; discriminate Heq.
    + intros _. simpl. rewrite app_nil_r. exact Hacc.
  - simpl in Hacc. destruct Hacc as [[Hq Href] Hrest].
    destruct r as [v | e]; simpl in Hrest.
    + destruct (IH (acc ++ [v]) o Hrest) as [Hpre [Hraise Hend]].
      split; [| split].
      * intros pre ev post Heq.
        destruct pre as [| ev' pre]; simpl in Heq.
        -- injection Heq as Hev _. subst ev. simpl.
           rewrite app_nil_r. repeat split; assumption.
        -- injection Heq as Hev' Heq. subst ev'.
           destruct (Hpre pre ev post Heq) as [H1 [H2 H3]].
           simpl. rewrite <- app_assoc in H2. simpl in H2.
           repeat split; assumption.
      * intros pre q' e Heq.
        destruct pre as [| ev' pre]; simpl in Heq.
        -- discriminate Heq.
        -- injection Heq as _ Heq. exact (Hraise pre q' e Heq).
      * intros Hno. simpl in Hno.
        specialize (Hend Hno). rewrite <- app_assoc in Hend. exact Hend.
    + destruct tr as [| ev tr]; simpl in Hrest.
      * split; [| split].
        -- intros pre ev post Heq.
           destruct pre as [| ev' pre]; simpl in Heq.
           ++ injection Heq as Hev _. subst ev. simpl.
              rewrite app_nil_r. repeat split; assumption.
           ++ injection Heq as _ Heq. destruct pre; discriminate Heq.
        -- intros pre q' e' Heq.
           destruct pre as [| ev' pre]; simpl in Heq.
           ++ injection Heq as _ He. subst e'. exact Hrest.
           ++ injection Heq as _ Heq. destruct pre; discriminate Heq.
        -- intros Hno. discriminate Hno.
      * destruct Hrest as [[] _].
Qed.

(** The runs of a snippet against any browser keep to its script. *)
Lemma run_keeps_to_script (s : snippet) :
  forall (Host : Type) (respond : Host -> request -> response * Host)
         (h : Host),
    let r := run respond (snippet_prog s) h in
    (forall pre q ans post,
        trace r = pre ++ (q, ans) :: post ->
        existsb raises pre = false
        /\ nth_error (script s (answers pre)) (List.length pre) = Some q
        /\ refused q = false)
    /\ (forall pre q e, trace r = pre ++ [(q, Raises e)] -> result r = Threw e)
    /\ (existsb raises (trace r) = false ->
        script_end s (answers (trace r)) (result r)).
Proof.
  intros Host respond h r.
  pose proof (monitored_run _ _ _ _ _ _ (snippets_keep_to_script s)
                _ respond h) as Hacc.
  destruct (script_accepts s _ _ _ Hacc) as [Hpre [Hraise Hend]].
  split; [| split].
  - intros pre q ans post Heq.
    destruct (Hpre pre (q, ans) post Heq) as [H1 [H2 H3]].
    simpl in H2. rewrite answers_length in H2.
    repeat split; assumption.
  - exact Hraise.
  - exact Hend.
Qed.


(** ** Failure paths *)




(** ** Handles and returned values *)








(** ** The steps of a run that returns *)

Lemma nth_skipn (n i : nat) (a : list value) :
  (skipn n a).[i] = a.[n + i].
Proof.
  revert a. induction n as [| n IH]; intro a; simpl.
  - reflexivity.
  - destruct a as [| x a]; simpl.
    + destruct i; reflexivity.
    + apply IH.
Qed.

Lemma combine_requests (qs : list request) (a : list value) :
  List.length qs = List.length a ->
  map fst (combine qs (map Returns a)) = qs.
Proof.
  revert a. induction qs as [| q qs IH]; intros a Hlen; simpl.
  - reflexivity.
  - destruct a as [| v a]; simpl in *; [discriminate Hlen |].
    rewrite IH by (injection Hlen as Hlen; exact Hlen). reflexivity.
Qed.

(** When the script ends by a return, it is the list of steps. *)
Lemma returned_script (s : snippet) (a : list value) (v : value) :
  script_outcome s a = Returned v ->
  script s a = steps s a
  /\ (if truthy (device_of s a) then completed_with s a v
      else v = VUndefined).
Proof.
  unfold script, script_outcome, steps, body, completed_with, device_of,
    canvas_of, acquired, setup, computing.
  destruct s as [canvas | numbers | shader fragmentShader].
  - destruct (is_undefined canvas); cbn [List.length];
      rewrite ?nth_skipn; cbn [Nat.add];
      destruct (truthy _); intro H; injection H as H; subst v;
      split; reflexivity.
  - cbn [List.length]. change (skipn 0 a) with a. cbv zeta.
    rewrite !nth_skipn. cbn [Nat.add].
    destruct (truthy a.[4]).
    + destruct (nullish a.[10]); [discriminate |].
      destruct (is_host a.[10]); [| discriminate].
      destruct (Float32Array_of a.[27]) as [elems |]; [| discriminate].
      intro H. injection H as H. subst v. split.
      * reflexivity.
      * exists elems. split; reflexivity.
    + intro H. injection H as H. subst v. split; reflexivity.
  - cbn [List.length]. change (skipn 0 a) with a.
    destruct (truthy a.[4]); intro H;
      injection H as H; subst v; split; reflexivity.
Qed.

(** A run that returns made the steps of its function, one after the
    other, each answered. *)
Lemma returned_run (s : snippet) :
  forall (Host : Type) (respond : Host -> request -> response * Host)
         (h : Host) (v : value),
    let r := run respond (snippet_prog s) h in
    let a := answers (trace r) in
    result r = Returned v ->
    trace r = combine (steps s a) (map Returns a)
    /\ List.length (steps s a) = List.length a
    /\ (if truthy (device_of s a) then completed_with s a v
        else v = VUndefined).
Proof.
  intros Host respond h v r a Hres.
  destruct (wp_run _ _ _ (snippets_return_at_end s) _ respond h v Hres)
    as [Htr [Hlen Hout]].
  fold r in Htr, Hlen, Hout. fold a in Htr, Hlen, Hout.
  destruct (returned_script s a v Hout) as [Hsteps Hv].
  rewrite <- Hsteps. repeat split.
  - exact Htr.
  - unfold a. rewrite answers_length. exact Hlen.
  - exact Hv.
Qed.

(** ** The outline *)

(** C3, the claim as worded.  Called without a canvas,
    [drawTrianglesToTextures] creates its canvas before it asks for a
    device; [drawTriangleWithShader] creates its shader modules from its
    arguments; the sizes of the buffers of [doubleGPU] are those of its
    input. *)
Lemma steps_not_as_claimed :
  ~ device_requested_first /\ ~ shaders_hardcoded /\ ~ buffers_hardcoded.
Proof.
  split; [| split].
  - intro H.
    destruct (H (DrawTrianglesToTextures VUndefined) _ scripted [])
      as [ans [rest Heq]].
    discriminate Heq.
  - intro H.
    specialize (H (DrawTriangleWithShader InterStageVariables.rgb_triangle_shader
                     VUndefined)
                  (DrawTriangleWithShader InterStageVariables.vsModule
                     InterStageVariables.fsModule)
                  eq_refl _ _ (Browser.respond ieee) (Browser.respond ieee)
                  Browser.initial Browser.initial).
    assert (H1 : completes
                   (result (run (Browser.respond ieee)
                              (snippet_prog
                                 (DrawTriangleWithShader
                                    InterStageVariables.rgb_triangle_shader
                                    VUndefined)) Browser.initial))).
    { exists (VHost 6). split; [reflexivity | discriminate]. }
    assert (H2 : completes
                   (result (run (Browser.respond ieee)
                              (snippet_prog
                                 (DrawTriangleWithShader
                                    InterStageVariables.vsModule
                                    InterStageVariables.fsModule))
                              Browser.initial))).
    { exists (VHost 6). split; [reflexivity | discriminate]. }
    specialize (H H1 H2).
    apply (f_equal (@List.length (list value))) in H.
    vm_compute in H. discriminate H.
  - intro H.
    specialize (H [] [num_1] _ _ (Browser.respond ieee) (Browser.respond ieee)
                  Browser.initial Browser.initial).
    assert (H1 : completes
                   (result (run (Browser.respond ieee)
                              (Fundamentals.doubleGPU []) Browser.initial))).
    { eexists. split; [vm_compute; reflexivity | discriminate]. }
    assert (H2 : completes
                   (result (run (Browser.respond ieee)
                              (Fundamentals.doubleGPU [num_1])
                              Browser.initial))).
    { eexists. split; [vm_compute; reflexivity | discriminate]. }
    specialize (H H1 H2).
    vm_compute in H. discriminate H.
Qed.

Lemma steps_draw_once (s : snippet) (a : list value) :
  truthy (device_of s a) = true ->
  exists pass,
    filter is_draw_or_dispatch (steps s a) = [draw_or_dispatch s pass].
Proof.
  intro Hdevice. unfold steps. rewrite Hdevice.
  destruct s as [canvas | numbers | shader fragmentShader];
    unfold setup, body, shaders_of;
    repeat match goal with
           | |- context [if ?c then _ else _] => destruct c
           end;
    eexists; reflexivity.
Qed.

(** C3, as amended.  A run of a snippet function that returns has made
    the requests of [steps], one after the other and each answered: the
    canvas when [drawTrianglesToTextures] is given none, then the
    acquisition of the device; then, when the device is falsy, the alert
    alone (and the function returns [undefined]); otherwise the
    creation of the shader modules, the pipeline and the buffers with
    the descriptors written in the function ([drawTriangleWithShader]
    passing on its arguments, the buffers of [doubleGPU] having the byte
    length of its input), the one [draw(3)] or
    [dispatchWorkgroups(numbers.length)] and the submission.  In any
    run, returning or not, each request is the next one of the script. *)
Theorem snippet_steps_in_order :
  forall (Host : Type) (respond : Host -> request -> response * Host)
         (h : Host) (s : snippet),
    let r := run respond (snippet_prog s) h in
    let a := answers (trace r) in
    (forall v,
        result r = Returned v ->
        trace r = combine (steps s a) (map Returns a)
        /\ List.length (steps s a) = List.length a
        /\ (if truthy (device_of s a)
            then completed_with s a v
                 /\ exists pass,
                      filter is_draw_or_dispatch (steps s a)
                      = [draw_or_dispatch s pass]
            else v = VUndefined))
    /\ (forall pre q ans post,
          trace r = pre ++ (q, ans) :: post ->
          nth_error (script s (answers pre)) (List.length pre) = Some q).
Proof.
  intros Host respond h s r a. split.
  - intros v Hres.
    destruct (returned_run s _ respond h v Hres) as [Htr [Hlen Hv]].
    fold r in Htr, Hlen, Hv. fold a in Htr, Hlen, Hv.
    split; [exact Htr | split; [exact Hlen |]].
    destruct (truthy (device_of s a)) eqn:Hdevice; [| exact Hv].
    split; [exact Hv | exact (steps_draw_once s a Hdevice)].
  - intros pre q ans post Heq.
    destruct (run_keeps_to_script s _ respond h) as [Hpre _].
    destruct (Hpre pre q ans post Heq) as [_ [Hq _]]. exact Hq.
Qed.

(** ** The rendering calls *)

(** A completed run of a drawing function: the device was truthy, and
    the requests are the acquisition followed by the body. *)
Lemma completed_run (s : snippet) :
  forall (Host : Type) (respond : Host -> request -> response * Host)
         (h : Host),
    let r := run respond (snippet_prog s) h in
    let a := answers (trace r) in
    completes (result r) ->
    map fst (trace r) = setup s ++ acquisition (acquired s a) ++ body s a
    /\ trace r = combine (map fst (trace r)) (map Returns a)
    /\ exists v, result r = Returned v /\ completed_with s a v.
Proof.
  intros Host respond h r a [v [Hres Hv]].
  destruct (returned_run s _ respond h v Hres) as [Htr [Hlen Hout]].
  fold r in Htr, Hlen, Hout. fold a in Htr, Hlen, Hout.
  assert (Hsteps : steps s a = setup s ++ acquisition (acquired s a) ++ body s a).
  { unfold steps. destruct (truthy (device_of s a)); [reflexivity |].
    contradiction. }
  assert (Hdevice : truthy (device_of s a) = true).
  { destruct (truthy (device_of s a)); [reflexivity | contradiction]. }
  rewrite Hdevice in Hout.
  assert (Hreq : map fst (trace r) = steps s a).
  { rewrite Htr at 1. apply combine_requests. exact Hlen. }
  rewrite Hreq, <- Hsteps.
  split; [reflexivity | split; [exact Htr |]].
  exists v. split; assumption.
Qed.

(** C8, the claim as worded.  On the reference browser the method calls
    that follow the await of the device are fourteen:
    [getContext], [getPreferredCanvasFormat], [getCurrentTexture] and
    [createView] are among them. *)
Lemma listed_calls_incomplete : ~ calls_as_listed.
Proof.
  intro H.
  specialize (H _ (Browser.respond ieee) Browser.initial VUndefined).
  assert (Hc : completes
                 (result (run (Browser.respond ieee)
                            (Fundamentals.drawTrianglesToTextures VUndefined)
                            Browser.initial))).
  { eexists. split; [vm_compute; reflexivity | discriminate]. }
  specialize (H Hc). vm_compute in H. discriminate H.
Qed.

(** C8, as amended.  The requests of [drawTrianglesToTextures] once it
    has its device do not depend on the run: for any two completed runs,
    on any browsers and for any canvases, they are the requests of
    [rendering], that is [getContext("webgpu")] on the canvas,
    [navigator.gpu], [getPreferredCanvasFormat], [configure],
    [createShaderModule], [createRenderPipeline], [getCurrentTexture],
    [createView], [createCommandEncoder], [beginRenderPass],
    [setPipeline], [draw(3)], [end], [finish], [device.queue] and
    [submit], with the descriptors written in the function and each
    receiver and handle being the answer of the browser to the request
    that produced it; they follow the creation of the canvas, when none
    is given, and the acquisition of the device, every request being
    answered; and the canvas is returned. *)
Theorem draw_call_sequence_is_fixed :
  forall (Host1 Host2 : Type)
         (respond1 : Host1 -> request -> response * Host1)
         (respond2 : Host2 -> request -> response * Host2)
         (h1 : Host1) (h2 : Host2) (canvas1 canvas2 : value),
    let s1 := DrawTrianglesToTextures canvas1 in
    let s2 := DrawTrianglesToTextures canvas2 in
    let r1 := run respond1 (snippet_prog s1) h1 in
    let r2 := run respond2 (snippet_prog s2) h2 in
    let a1 := answers (trace r1) in
    let a2 := answers (trace r2) in
    completes (result r1) ->
    completes (result r2) ->
    (map fst (trace r1)
     = setup s1 ++ acquisition (acquired s1 a1)
       ++ rendering (canvas_of s1 a1) (device_of s1 a1) [red_triangle_shader]
            (skipn 5 (acquired s1 a1))
     /\ trace r1 = combine (map fst (trace r1)) (map Returns a1)
     /\ result r1 = Returned (canvas_of s1 a1))
    /\ (map fst (trace r2)
        = setup s2 ++ acquisition (acquired s2 a2)
          ++ rendering (canvas_of s2 a2) (device_of s2 a2)
               [red_triangle_shader] (skipn 5 (acquired s2 a2))
        /\ trace r2 = combine (map fst (trace r2)) (map Returns a2)
        /\ result r2 = Returned (canvas_of s2 a2))
    /\ (forall canvas device b,
          map name_of (rendering canvas device [red_triangle_shader] b)
          = [ "getContext"; "gpu"; "getPreferredCanvasFormat"; "configure";
              "createShaderModule"; "createRenderPipeline";
              "getCurrentTexture"; "createView"; "createCommandEncoder";
              "beginRenderPass"; "setPipeline"; "draw"; "end"; "finish";
              "queue"; "submit" ]).
Proof.
  intros Host1 Host2 respond1 respond2 h1 h2 canvas1 canvas2
    s1 s2 r1 r2 a1 a2 Hc1 Hc2.
  destruct (completed_run s1 _ respond1 h1 Hc1) as [Hq1 [Htr1 [v1 [Hv1 Hw1]]]].
  destruct (completed_run s2 _ respond2 h2 Hc2) as [Hq2 [Htr2 [v2 [Hv2 Hw2]]]].
  simpl in Hw1, Hw2. subst v1 v2.
  split; [| split].
  - split; [exact Hq1 | split; [exact Htr1 | exact Hv1]].
  - split; [exact Hq2 | split; [exact Htr2 | exact Hv2]].
  - intros canvas device b. reflexivity.
Qed.

(** C9, the claim as worded.  The descriptor of the rgb triangle has
    another label than that of the red triangle, and a second argument
    that is falsy ([null] here) is not used. *)
Lemma rgb_variant_differs_more :
  ~ rgb_differs_only_in_source /\ ~ supplied_fragment_used.
Proof.
  split.
  - intro H.
    destruct (H _ (Browser.respond ieee) Browser.initial) as [x Hx].
    + exists (VHost 6). split; [vm_compute; reflexivity | discriminate].
    + apply (f_equal shader_labels) in Hx. vm_compute in Hx. discriminate Hx.
  - intro H.
    specialize (H _ (Browser.respond ieee) Browser.initial
                  InterStageVariables.vsModule VNull).
    assert (Hd : shader_descriptors
                   (trace (run (Browser.respond ieee)
                             (InterStageVariables.drawTriangleWithShader
                                InterStageVariables.vsModule VNull)
                             Browser.initial))
                 = [[InterStageVariables.vsModule]])
      by (vm_compute; reflexivity).
    cbv zeta in H. rewrite Hd in H.
    destruct H as [H | []].
    + discriminate.
    + exists (VHost 6). split; [vm_compute; reflexivity | discriminate].
    + discriminate H.
Qed.

(** C9, as amended.  A completed run of [drawTriangleWithShader] makes
    the requests of a completed run of [drawTrianglesToTextures] (the
    acquisition of the device, then the requests of [rendering]: same
    pipeline descriptor, same render pass descriptor, same [draw(3)],
    [end], [finish], [submit]), each answered, except that the shader
    module is created from the descriptor it was passed, label and
    source, and that the canvas is its own: it creates the canvas after
    the device test, reads [window.devicePixelRatio] there, and returns
    it.  When the second argument is truthy, a second shader module is
    created from it, after the first, and is the module of the pipeline's
    fragment stage. *)
Theorem shader_variant_makes_same_calls :
  forall (Host1 Host2 : Type)
         (respond1 : Host1 -> request -> response * Host1)
         (respond2 : Host2 -> request -> response * Host2)
         (h1 : Host1) (h2 : Host2) (canvas shader fragmentShader : value),
    let s1 := DrawTrianglesToTextures canvas in
    let r1 := run respond1 (snippet_prog s1) h1 in
    let r2 := run respond2
                (InterStageVariables.drawTriangleWithShader shader
                   fragmentShader) h2 in
    let a1 := answers (trace r1) in
    let a2 := answers (trace r2) in
    completes (result r1) ->
    completes (result r2) ->
    (map fst (trace r1)
     = setup s1 ++ acquisition (acquired s1 a1)
       ++ rendering (canvas_of s1 a1) (device_of s1 a1) [red_triangle_shader]
            (skipn 5 (acquired s1 a1))
     /\ trace r1 = combine (map fst (trace r1)) (map Returns a1))
    /\ (map fst (trace r2)
        = acquisition a2
          ++ [create_canvas; GetProp window "devicePixelRatio"]
          ++ rendering a2.[5] a2.[4]
               (shader :: (if truthy fragmentShader then [fragmentShader]
                           else []))
               (skipn 7 a2)
        /\ trace r2 = combine (map fst (trace r2)) (map Returns a2)
        /\ result r2 = Returned a2.[5]).
Proof.
  intros Host1 Host2 respond1 respond2 h1 h2 canvas shader fragmentShader
    s1 r1 r2 a1 a2 Hc1 Hc2.
  destruct (completed_run s1 _ respond1 h1 Hc1) as [Hq1 [Htr1 _]].
  destruct (completed_run (DrawTriangleWithShader shader fragmentShader)
              _ respond2 h2 Hc2) as [Hq2 [Htr2 [v2 [Hv2 Hw2]]]].
  simpl in Hw2. subst v2.
  split.
  - split; [exact Hq1 | exact Htr1].
  - split; [exact Hq2 | split; [exact Htr2 | exact Hv2]].
Qed.

(** ** The compute example on the reference browser *)

(** The browser compiles the doubling shader to its entry point. *)
Lemma compile_doubling (impl : wgsl_implementation) :
  Browser.compile impl Fundamentals.doubling_wgsl
  = Some (Fundamentals.computeSomething impl).
Proof. unfold Browser.compile. rewrite String.eqb_refl. reflexivity. Qed.

Lemma words_of_byteLength (a : list float32) :
  Browser.words_of_bytes (byteLength a) = List.length a.
Proof.
  unfold Browser.words_of_bytes, byteLength.
  rewrite Z.mul_comm, Z.div_mul by discriminate. apply Nat2Z.id.
Qed.

Lemma words_of_zero : Browser.words_of_bytes 0 = 0.
Proof. reflexivity. Qed.

Lemma blit_all (src data : list float32) :
  List.length data = List.length src -> Browser.blit 0 src data = src.
Proof.
  intro Hlen. unfold Browser.blit. simpl.
  rewrite skipn_all2 by (rewrite Hlen; apply le_n). apply app_nil_r.
Qed.

(** Invocation [i] doubles element [i] and leaves the others. *)
Lemma computeSomething_doubles (impl : wgsl_implementation)
  (done todo : list float32) (d : float32) :
  Fundamentals.computeSomething impl (List.length done) (done ++ d :: todo)
  = (done ++ [wgsl_mul impl d f32_two]) ++ todo.
Proof.
  unfold Fundamentals.computeSomething.
  assert (Hnth : nth_error (done ++ d :: todo) (List.length done) = Some d).
  { rewrite nth_error_app2 by apply le_n. rewrite Nat.sub_diag. reflexivity. }
  assert (Hfirst : firstn (List.length done) (done ++ d :: todo) = done).
  { rewrite firstn_app, firstn_all, Nat.sub_diag. apply app_nil_r. }
  assert (Hskip : skipn (S (List.length done)) (done ++ d :: todo) = todo).
  { rewrite skipn_app, skipn_all2 by (apply Nat.le_succ_diag_r).
    replace (S (List.length done) - List.length done) with 1 by lia.
    reflexivity. }
  rewrite Hnth, Hfirst, Hskip, <- app_assoc. reflexivity.
Qed.

(** The invocations of one dispatch, by induction on what is left. *)
Lemma invocations_double (impl : wgsl_implementation) (todo : list float32) :
  forall done,
    Browser.invocations (Fundamentals.computeSomething impl)
      (List.length done) (List.length todo) (done ++ todo)
    = done ++ map (fun d => wgsl_mul impl d f32_two) todo.
Proof.
  induction todo as [| d todo IH]; intro done; simpl.
  - reflexivity.
  - rewrite computeSomething_doubles.
    replace (S (List.length done))
      with (List.length (done ++ [wgsl_mul impl d f32_two]))
      by (rewrite length_app; simpl; lia).
    rewrite IH, <- app_assoc. reflexivity.
Qed.

Lemma dispatch_doubles (impl : wgsl_implementation) (data : list float32) :
  Browser.invocations (Fundamentals.computeSomething impl) 0
    (List.length data) data
  = map (fun d => wgsl_mul impl d f32_two) data.
Proof. exact (invocations_double impl data []). Qed.

Ltac reduce_browser :=
  cbn -[Browser.words_of_bytes byteLength Float32Array_from Browser.blit
        Browser.invocations Z.to_nat Z.of_nat Z.ltb Z.leb
        Browser.maxComputeWorkgroupsPerDimension Browser.max_GPUSize32
        f32_mul fround f32_two f32_zero Fundamentals.computeSomething
        Fundamentals.doubling_wgsl Browser.compile wgsl_mul Float32Array_of].

(** The run of [doubleGPU] on the reference browser, for an input that
    the argument of [dispatchWorkgroups] can count: within the limit on
    the workgroups the result buffer receives the products; beyond it
    nothing is executed and the buffer keeps its zeros. *)
Lemma doubleGPU_run (impl : wgsl_implementation) (numbers : list float64) :
  (Z.of_nat (List.length numbers) <= Browser.max_GPUSize32)%Z ->
  result (run (Browser.respond impl) (Fundamentals.doubleGPU numbers)
            Browser.initial)
  = Returned
      (VFloat32Array
         (if (Z.of_nat (List.length numbers)
              <=? Browser.maxComputeWorkgroupsPerDimension)%Z
          then map (fun x => wgsl_mul impl (fround x) f32_two) numbers
          else repeat f32_zero (List.length numbers))).
Proof.
  intro Hcount.
  assert (Hneg : (Z.of_nat (List.length numbers) <? 0)%Z = false)
    by (apply Z.ltb_ge; lia).
  assert (Hmax : (Browser.max_GPUSize32 <? Z.of_nat (List.length numbers))%Z
                 = false)
    by (apply Z.ltb_ge; exact Hcount).
  unfold Fundamentals.doubleGPU.
  replace (List.length (Float32Array_from numbers))
    with (List.length numbers)
    by (unfold Float32Array_from; rewrite length_map; reflexivity).
  reduce_browser.
  rewrite Hneg, Hmax.
  destruct (Z.of_nat (List.length numbers)
            <=? Browser.maxComputeWorkgroupsPerDimension)%Z.
  - reduce_browser.
    rewrite compile_doubling.
    reduce_browser.
    rewrite !words_of_byteLength, words_of_zero, !repeat_length, Nat2Z.id.
    rewrite (blit_all (Float32Array_from numbers)) by apply repeat_length.
    replace (List.length numbers)
      with (List.length (Float32Array_from numbers)) at 1
      by (unfold Float32Array_from; rewrite length_map; reflexivity).
    rewrite dispatch_doubles. simpl skipn.
    rewrite firstn_all2 by (rewrite length_map; apply le_n).
    rewrite blit_all by (rewrite repeat_length, length_map; reflexivity).
    unfold Float32Array_from. rewrite map_map. reflexivity.
  - reduce_browser.
    rewrite !words_of_byteLength.
    unfold Float32Array_from. rewrite length_map. reflexivity.
Qed.

(** IEEE-754 doubles a normal number whose double is finite by
    incrementing its exponent. *)
Lemma ieee_double_normal (s : bool) (m : positive) (e : Z) :
  digits2_pos m = 24%positive -> (-149 <= e <= 103)%Z ->
  f32_mul (S754_finite s m e) f32_two = S754_finite s m (e + 1).
Proof.
  intros Hm He. unfold f32_mul, SFmul, f32_two, prec32, emax32.
  rewrite (Pos.mul_comm m). cbn [Pos.mul].
  unfold binary_round_aux, shr_fexp.
  cbn [Zdigits2 digits2_pos]. rewrite Hm. cbn [Pos.succ].
  unfold fexp, emin.
  replace (Z.max (47 + (e + -22) - 24) (3 - 128 - 24))%Z with (e + 1)%Z by lia.
  replace (e + 1 - (e + -22))%Z with 23%Z by lia.
  cbn [shr iter_pos shr_1 shr_record_of_loc orb].
  cbn [round_nearest_even shr_m loc_of_shr_record shr_r shr_s].
  cbn [Zdigits2]. rewrite Hm.
  replace (Z.max (24 + (e + -22 + 23) - 24) (3 - 128 - 24))%Z
    with (e + -22 + 23)%Z by lia.
  rewrite Z.sub_diag. cbn [shr shr_record_of_loc shr_m].
  replace (e + -22 + 23 <=? 128 - 24)%Z with true
    by (symmetry; apply Z.leb_le; lia).
  rewrite xorb_false_r. f_equal. lia.
Qed.

(** IEEE-754 arithmetic is what WGSL asks for, with or without the
    flushing of subnormal numbers. *)
Lemma ieee_doubles_exactly : doubles_exactly ieee.
Proof.
  intros [s | | | s m e]; simpl; try contradiction.
  - intros _. exists (xorb s false). reflexivity.
  - intros [Hm He]. apply ieee_double_normal; assumption.
Qed.

Lemma flush_normal (s : bool) (m : positive) (e : Z) :
  digits2_pos m = 24%positive ->
  flush (S754_finite s m e) = S754_finite s m e.
Proof. intro Hm. unfold flush, is_subnormal. rewrite Hm. reflexivity. Qed.

Lemma flushing_doubles_exactly : doubles_exactly flushing.
Proof.
  intros [s | | | s m e]; unfold doubles_in_range, is_twice, flushing;
    cbn [wgsl_mul]; try contradiction.
  - intros _. exists (xorb s false). reflexivity.
  - intros [Hm He].
    rewrite (flush_normal s m e Hm).
    change (flush f32_two) with f32_two.
    rewrite ieee_double_normal by assumption.
    apply flush_normal. exact Hm.
Qed.

(** C5, the claim as worded.  With 65536 numbers the dispatch exceeds the
    limit of the device on workgroups, nothing is executed, and
    [doubleGPU] returns zeros; and on an implementation that flushes
    subnormal numbers to zero, as WGSL allows, a subnormal number is not
    doubled. *)
Lemma doubling_has_limits :
  ~ doubled_by ieee (repeat num_1 (Z.to_nat 65536))
  /\ doubles_exactly flushing /\ ~ doubled_by flushing [tiny].
Proof.
  split; [| split].
  - remember (Z.to_nat 65536) as n eqn:Hn.
    assert (Hcount : Z.of_nat n = 65536%Z)
      by (rewrite Hn; apply Z2Nat.id; discriminate).
    clear Hn.
    intros [elems [Hres [_ Hnth]]].
    rewrite doubleGPU_run in Hres
      by (rewrite repeat_length, Hcount; discriminate).
    rewrite repeat_length, Hcount in Hres.
    change (65536 <=? Browser.maxComputeWorkgroupsPerDimension)%Z
      with false in Hres.
    injection Hres as Helems.
    assert (H0 : nth_error (repeat num_1 n) 0 = Some num_1)
      by (apply nth_error_repeat; lia).
    specialize (Hnth 0 num_1 H0). rewrite <- Helems in Hnth.
    rewrite nth_error_repeat in Hnth by lia.
    clear - Hnth. vm_compute in Hnth. discriminate Hnth.
  - exact flushing_doubles_exactly.
  - intros [elems [Hres [_ Hnth]]].
    specialize (Hnth 0 tiny eq_refl).
    rewrite doubleGPU_run in Hres by (vm_compute; discriminate).
    injection Hres as Helems. rewrite <- Helems in Hnth.
    vm_compute in Hnth. discriminate Hnth.
Qed.

(** C5, as amended.  On the reference browser, which runs the compute
    entry point once per dispatched workgroup with the arithmetic of a
    WGSL implementation, [doubleGPU] returns for every list of at most
    65535 numbers a Float32Array of the same length whose [i]-th element
    is the implementation's product by [2.0] of the [i]-th number
    converted to f32; when the implementation doubles exactly, as WGSL
    requires on normal numbers, this element is twice the converted
    number (same sign and mantissa, next exponent) whenever the converted
    number is zero or is normal with a finite double. *)
Theorem doubleGPU_doubles :
  forall (impl : wgsl_implementation) (numbers : list float64),
    (Z.of_nat (List.length numbers) <= 65535)%Z ->
    exists elems,
      result (run (Browser.respond impl) (Fundamentals.doubleGPU numbers)
                Browser.initial)
      = Returned (VFloat32Array elems)
      /\ List.length elems = List.length numbers
      /\ (forall i x,
            nth_error numbers i = Some x ->
            nth_error elems i = Some (wgsl_mul impl (fround x) f32_two))
      /\ (doubles_exactly impl ->
          forall i x,
            nth_error numbers i = Some x ->
            doubles_in_range (fround x) ->
            exists r, nth_error elems i = Some r /\ is_twice (fround x) r).
Proof.
  intros impl numbers Hlen.
  exists (map (fun x => wgsl_mul impl (fround x) f32_two) numbers).
  assert (Hnth : forall i x,
             nth_error numbers i = Some x ->
             nth_error (map (fun x => wgsl_mul impl (fround x) f32_two) numbers)
               i = Some (wgsl_mul impl (fround x) f32_two)).
  { intros i x Hx. rewrite nth_error_map, Hx. reflexivity. }
  split; [| split; [apply length_map | split; [exact Hnth |]]].
  - rewrite doubleGPU_run by (unfold Browser.max_GPUSize32; lia).
    replace (Z.of_nat (List.length numbers)
             <=? Browser.maxComputeWorkgroupsPerDimension)%Z with true
      by (symmetry; apply Z.leb_le;
          unfold Browser.maxComputeWorkgroupsPerDimension; lia).
    reflexivity.
  - intros Hexact i x Hx Hrange.
    exists (wgsl_mul impl (fround x) f32_two).
    split; [exact (Hnth i x Hx) | exact (Hexact _ Hrange)].
Qed.

(** The second element of [doubleGPU([1, 3, 5])] with IEEE-754
    arithmetic. *)
Lemma doubleGPU_doubles_witness :
  exists elems,
    result (run (Browser.respond ieee)
              (Fundamentals.doubleGPU [num_1; num_3; num_5]) Browser.initial)
    = Returned (VFloat32Array elems)
    /\ List.length elems = 3
    /\ nth_error elems 1 = Some (f32_mul (fround num_3) f32_two)
    /\ exists r, nth_error elems 1 = Some r /\ is_twice (fround num_3) r.
Proof.
  destruct (doubleGPU_doubles ieee [num_1; num_3; num_5])
    as [elems [Hrun [Hlen [Hnth Htwice]]]].
  - simpl. lia.
  - exists elems. split; [exact Hrun |]. split; [exact Hlen |]. split.
    + exact (Hnth 1 num_3 eq_refl).
    + apply (Htwice ieee_doubles_exactly 1 num_3 eq_refl).
      vm_compute. split; [reflexivity | split; discriminate].
Defined.

(** The cell [doubleGPU([1, 3, 5])] of the page yields 2, 6, 10. *)
Example doubleGPU_1_3_5 :
  result (run (Browser.respond ieee)
            (Fundamentals.doubleGPU [num_1; num_3; num_5]) Browser.initial)
  = Returned (VFloat32Array [S754_finite false 8388608 (-22);
                             S754_finite false 12582912 (-21);
                             S754_finite false 10485760 (-20)]).
Proof. vm_compute. reflexivity. Qed.

(** ** The doubling entry point *)

(** Element by element: invocation [i] doubles element [i] and leaves
    the others. *)
Lemma computeSomething_nth (impl : wgsl_implementation) (i j : nat)
  (data : list float32) :
  i < List.length data ->
  nth_error (Fundamentals.computeSomething impl i data) j
  = if Nat.eqb j i
    then option_map (fun d => wgsl_mul impl d f32_two) (nth_error data i)
    else nth_error data j.
Proof.
  intro Hlt. unfold Fundamentals.computeSomething.
  destruct (nth_error data i) as [d |] eqn:Hi.
  - assert (Hfirst : List.length (firstn i data) = i)
      by (rewrite length_firstn; lia).
    destruct (Nat.eqb_spec j i) as [-> | Hne].
    + rewrite nth_error_app2 by lia. rewrite Hfirst, Nat.sub_diag. reflexivity.
    + destruct (Nat.lt_ge_cases j i) as [Hlow | Hhigh].
      * rewrite nth_error_app1 by lia. rewrite nth_error_firstn.
        destruct (Nat.ltb_spec j i); [reflexivity | lia].
      * rewrite nth_error_app2 by lia. rewrite Hfirst.
        destruct (j - i) as [| k] eqn:Hk; [lia |]. cbn [nth_error].
        rewrite nth_error_skipn. f_equal. lia.
  - apply nth_error_None in Hi. lia.
Qed.

Lemma computeSomething_length (impl : wgsl_implementation) (i : nat)
  (data : list float32) :
  i < List.length data ->
  List.length (Fundamentals.computeSomething impl i data) = List.length data.
Proof.
  intro Hlt. unfold Fundamentals.computeSomething.
  destruct (nth_error data i) as [d |] eqn:Hi.
  - rewrite length_app, length_firstn. cbn [List.length].
    rewrite length_skipn. lia.
  - apply nth_error_None in Hi. lia.
Qed.

(** X4.  Whatever the arithmetic of the implementation, an invocation of
    the doubling entry point inside the array keeps the length of the
    array, replaces the element at its own index by the product of that
    element with 2.0 and leaves every other element as it was. *)
Theorem invocation_touches_own_element :
  forall (impl : wgsl_implementation) (i : nat) (data : list float32),
    i < List.length data ->
    List.length (Fundamentals.computeSomething impl i data) = List.length data
    /\ nth_error (Fundamentals.computeSomething impl i data) i
       = option_map (fun d => wgsl_mul impl d f32_two) (nth_error data i)
    /\ forall j, j <> i ->
         nth_error (Fundamentals.computeSomething impl i data) j
         = nth_error data j.
Proof.
  intros impl i data Hin.
  split; [apply computeSomething_length; exact Hin |]. split.
  - rewrite computeSomething_nth by exact Hin. rewrite Nat.eqb_refl.
    reflexivity.
  - intros j Hne. rewrite computeSomething_nth by exact Hin.
    destruct (Nat.eqb_spec j i); [contradiction | reflexivity].
Qed.

Lemma invocation_witness :
  List.length (Fundamentals.computeSomething flushing 1
                 [f32_zero; f32_two; f32_zero]) = 3
  /\ nth_error (Fundamentals.computeSomething flushing 1
                  [f32_zero; f32_two; f32_zero]) 1
     = option_map (fun d => wgsl_mul flushing d f32_two)
         (nth_error [f32_zero; f32_two; f32_zero] 1)
  /\ forall j, j <> 1 ->
       nth_error (Fundamentals.computeSomething flushing 1
                    [f32_zero; f32_two; f32_zero]) j
       = nth_error [f32_zero; f32_two; f32_zero] j.
Proof.
  apply (invocation_touches_own_element flushing 1
           [f32_zero; f32_two; f32_zero]).
  simpl. lia.
Defined.

(** ** Interleaved invocations *)

Lemma set_nth_length (A : Type) (i : nat) (x : A) (l : list A) :
  List.length (set_nth i x l) = List.length l.
Proof.
  revert i. induction l as [| y l IH]; intros [| i]; simpl; try reflexivity.
  rewrite IH. reflexivity.
Qed.

Lemma set_nth_same (A : Type) (i : nat) (x : A) (l : list A) :
  i < List.length l -> nth_error (set_nth i x l) i = Some x.
Proof.
  revert i. induction l as [| y l IH]; intros [| i] Hlt; simpl in *;
    try lia; [reflexivity |].
  apply IH. lia.
Qed.

Lemma set_nth_other (A : Type) (i j : nat) (x : A) (l : list A) :
  j <> i -> nth_error (set_nth i x l) j = nth_error l j.
Proof.
  revert i j. induction l as [| y l IH]; intros [| i] [| j] Hne; simpl;
    try reflexivity; try contradiction.
  apply IH. intro H. apply Hne. rewrite H. reflexivity.
Qed.

(** A load followed by the store of the same invocation is what the
    entry point does to the buffer. *)
Lemma advance_twice (impl : wgsl_implementation) (i : nat)
  (data : list float32) (others : list invocation_state) :
  i < List.length data ->
  nth_error others i = Some Waiting ->
  buffer (advance impl i (advance impl i (mkDispatch data others)))
  = Fundamentals.computeSomething impl i data.
Proof.
  intros Hlt Hwait.
  assert (Hi : i < List.length others)
    by (apply nth_error_Some; rewrite Hwait; discriminate).
  destruct (nth_error data i) as [d |] eqn:Hd;
    [| apply nth_error_None in Hd; lia].
  unfold advance at 2. simpl. rewrite Hwait, Hd.
  unfold advance. simpl. rewrite (set_nth_same _ i _ others Hi). simpl.
  apply nth_error_ext. intro j.
  rewrite computeSomething_nth by exact Hlt.
  destruct (Nat.eqb_spec j i) as [-> | Hne].
  - rewrite set_nth_same by exact Hlt. rewrite Hd. reflexivity.
  - apply set_nth_other. exact Hne.
Qed.

Lemma progress_advance (impl : wgsl_implementation) (data : list float32)
  (steps : nat -> nat) (st : dispatch_state) (i : nat) :
  progress_of impl data steps st ->
  progress_of impl data (fun j => if Nat.eqb j i then S (steps j) else steps j)
    (advance impl i st).
Proof.
  intros [Hbuf [Hinv Hall]].
  destruct (nth_error data i) as [d |] eqn:Hd.
  - assert (Hlt : i < List.length data)
      by (apply nth_error_Some; rewrite Hd; discriminate).
    specialize (Hall i d Hd) as Hi.
    unfold advance.
    destruct (steps i) as [| [| n]] eqn:Hsteps; destruct Hi as [Hi1 Hi2];
      rewrite Hi1; try rewrite Hi2; unfold progress_of; simpl.
    + split; [exact Hbuf | split; [rewrite set_nth_length; exact Hinv |]].
      intros j d' Hd'. specialize (Hall j d' Hd').
      destruct (Nat.eqb_spec j i) as [-> | Hne].
      * rewrite Hsteps. rewrite Hd in Hd'. injection Hd' as <-.
        split; [apply set_nth_same; lia | exact Hi2].
      * rewrite (set_nth_other _ i j _ _ Hne). exact Hall.
    + split; [rewrite set_nth_length; exact Hbuf |
              split; [rewrite set_nth_length; exact Hinv |]].
      intros j d' Hd'. specialize (Hall j d' Hd').
      destruct (Nat.eqb_spec j i) as [-> | Hne].
      * rewrite Hsteps. rewrite Hd in Hd'. injection Hd' as <-.
        split; apply set_nth_same; lia.
      * rewrite !(set_nth_other _ i j _ _ Hne). exact Hall.
    + split; [exact Hbuf | split; [exact Hinv |]].
      intros j d' Hd'. specialize (Hall j d' Hd').
      destruct (Nat.eqb_spec j i) as [-> | Hne].
      * rewrite Hsteps. rewrite Hd in Hd'. injection Hd' as <-.
        split; assumption.
      * exact Hall.
  - assert (Hge : List.length data <= i) by (apply nth_error_None; exact Hd).
    assert (Hnone : nth_error (invocations st) i = None)
      by (apply nth_error_None; lia).
    unfold advance. rewrite Hnone. unfold progress_of.
    split; [exact Hbuf | split; [exact Hinv |]].
    intros j d' Hd'. specialize (Hall j d' Hd').
    destruct (Nat.eqb_spec j i) as [-> | Hne].
    + rewrite Hd in Hd'. discriminate Hd'.
    + exact Hall.
Qed.

Lemma progress_schedule (impl : wgsl_implementation) (data : list float32)
  (schedule : list nat) :
  forall (steps : nat -> nat) (st : dispatch_state),
    progress_of impl data steps st ->
    progress_of impl data
      (fun j => steps j + count_occ Nat.eq_dec schedule j)
      (run_schedule impl schedule st).
Proof.
  induction schedule as [| i schedule IH]; intros steps st Hst; simpl.
  - destruct Hst as [Hbuf [Hinv Hall]].
    split; [exact Hbuf | split; [exact Hinv |]].
    intros j d Hd. rewrite Nat.add_0_r. exact (Hall j d Hd).
  - pose proof (IH _ _ (progress_advance impl data steps st i Hst)) as H.
    destruct H as [Hbuf [Hinv Hall]].
    split; [exact Hbuf | split; [exact Hinv |]].
    intros j d Hd. specialize (Hall j d Hd). simpl in Hall.
    destruct (Nat.eq_dec i j) as [-> | Hne].
    + rewrite Nat.eqb_refl in Hall.
      replace (steps j + S (count_occ Nat.eq_dec schedule j))
        with (S (steps j) + count_occ Nat.eq_dec schedule j) by lia.
      exact Hall.
    + destruct (Nat.eqb_spec j i) as [-> | _]; [contradiction |].
      exact Hall.
Qed.

Lemma progress_start (impl : wgsl_implementation) (data : list float32) :
  progress_of impl data (fun _ => 0) (start data).
Proof.
  unfold start. split; [reflexivity | split; [apply repeat_length |]].
  intros i d Hd. simpl. split; [| exact Hd].
  apply nth_error_repeat. apply nth_error_Some. rewrite Hd. discriminate.
Qed.

(** X5.  The invocations of one dispatch do not interfere.  Let each
    invocation be a load of its element followed by a store of the
    product, and let the accesses of the invocations of
    [dispatchWorkgroups(input.length)] be interleaved in any way: once
    every invocation has made its two accesses, the buffer holds the
    product by 2.0 of every element, which is also what the invocations
    give when they run one after the other. *)
Theorem dispatch_order_irrelevant :
  forall (impl : wgsl_implementation) (data : list float32)
         (schedule : list nat),
    (forall i, i < List.length data ->
               count_occ Nat.eq_dec schedule i = 2) ->
    buffer (run_schedule impl schedule (start data))
    = map (fun d => wgsl_mul impl d f32_two) data
    /\ buffer (run_schedule impl schedule (start data))
       = Browser.invocations (Fundamentals.computeSomething impl) 0
           (List.length data) data.
Proof.
  intros impl data schedule Hall.
  assert (Hmap : buffer (run_schedule impl schedule (start data))
                 = map (fun d => wgsl_mul impl d f32_two) data).
  { destruct (progress_schedule impl data schedule _ _
                (progress_start impl data)) as [Hbuf [_ Hsteps]].
    apply nth_error_ext. intro i. rewrite nth_error_map.
    destruct (nth_error data i) as [d |] eqn:Hd; simpl.
    - specialize (Hsteps i d Hd). simpl in Hsteps.
      rewrite Hall in Hsteps
        by (apply nth_error_Some; rewrite Hd; discriminate).
      exact (proj2 Hsteps).
    - apply nth_error_None. rewrite Hbuf. apply nth_error_None. exact Hd. }
  split; [exact Hmap |].
  rewrite Hmap. symmetry. apply dispatch_doubles.
Qed.

Lemma dispatch_order_witness :
  buffer (run_schedule flushing [1; 0; 2; 0; 2; 1]
            (start [f32_zero; f32_two; f32_zero]))
  = map (fun d => wgsl_mul flushing d f32_two) [f32_zero; f32_two; f32_zero]
  /\ buffer (run_schedule flushing [1; 0; 2; 0; 2; 1]
               (start [f32_zero; f32_two; f32_zero]))
     = Browser.invocations (Fundamentals.computeSomething flushing) 0 3
         [f32_zero; f32_two; f32_zero].
Proof.
  apply (dispatch_order_irrelevant flushing [f32_zero; f32_two; f32_zero]
           [1; 0; 2; 0; 2; 1]).
  intros [| [| [| i]]] Hi; simpl in *; try reflexivity; lia.
Defined.

(** * Concrete runs *)



(** [drawTrianglesToTextures()] on the reference browser: the run
    returns the canvas it created, after the requests of [steps]. *)
Lemma snippet_steps_witness :
  let s := DrawTrianglesToTextures VUndefined in
  let r := run (Browser.respond ieee) (snippet_prog s) Browser.initial in
  let a := answers (trace r) in
  result r = Returned (VHost 1)
  /\ trace r = combine (steps s a) (map Returns a)
  /\ List.length (steps s a) = List.length a
  /\ (if truthy (device_of s a)
      then completed_with s a (VHost 1)
           /\ exists pass,
                filter is_draw_or_dispatch (steps s a)
                = [draw_or_dispatch s pass]
      else VHost 1 = VUndefined).
Proof.
  intros s r a. split; [vm_compute; reflexivity |].
  apply (proj1 (snippet_steps_in_order _ (Browser.respond ieee)
                  Browser.initial s)).
  vm_compute. reflexivity.
Defined.


(** Two runs of [drawTrianglesToTextures]: without argument on the
    reference browser, and with a canvas on a browser that answers every
    request with a fresh object. *)
Lemma draw_call_sequence_witness :
  let s1 := DrawTrianglesToTextures VUndefined in
  let s2 := DrawTrianglesToTextures (VHost 100) in
  let r1 := run (Browser.respond ieee) (snippet_prog s1) Browser.initial in
  let r2 := run scripted (snippet_prog s2) all_answered in
  let a1 := answers (trace r1) in
  let a2 := answers (trace r2) in
  (completes (result r1) /\ completes (result r2))
  /\ (map fst (trace r1)
      = setup s1 ++ acquisition (acquired s1 a1)
        ++ rendering (canvas_of s1 a1) (device_of s1 a1) [red_triangle_shader]
             (skipn 5 (acquired s1 a1))
      /\ trace r1 = combine (map fst (trace r1)) (map Returns a1)
      /\ result r1 = Returned (canvas_of s1 a1))
  /\ (map fst (trace r2)
      = setup s2 ++ acquisition (acquired s2 a2)
        ++ rendering (canvas_of s2 a2) (device_of s2 a2) [red_triangle_shader]
             (skipn 5 (acquired s2 a2))
      /\ trace r2 = combine (map fst (trace r2)) (map Returns a2)
      /\ result r2 = Returned (canvas_of s2 a2)).
Proof.
  intros s1 s2 r1 r2 a1 a2.
  assert (H1 : completes (result r1))
    by (exists (VHost 1); split; [vm_compute; reflexivity | discriminate]).
  assert (H2 : completes (result r2))
    by (exists (VHost 100); split; [vm_compute; reflexivity | discriminate]).
  split; [split; assumption |].
  destruct (draw_call_sequence_is_fixed _ _ (Browser.respond ieee) scripted
              Browser.initial all_answered VUndefined (VHost 100) H1 H2)
    as [Hr1 [Hr2 _]].
  split; [exact Hr1 | exact Hr2].
Defined.

(** The page's last cell, [drawTriangleWithShader(vsModule, fsModule)],
    next to [drawTrianglesToTextures()], on the reference browser. *)
Lemma shader_variant_witness :
  let s1 := DrawTrianglesToTextures VUndefined in
  let r1 := run (Browser.respond ieee) (snippet_prog s1) Browser.initial in
  let r2 := run (Browser.respond ieee)
              (InterStageVariables.drawTriangleWithShader
                 InterStageVariables.vsModule InterStageVariables.fsModule)
              Browser.initial in
  let a2 := answers (trace r2) in
  (completes (result r1) /\ completes (result r2))
  /\ map fst (trace r2)
     = acquisition a2
       ++ [create_canvas; GetProp window "devicePixelRatio"]
       ++ rendering a2.[5] a2.[4]
            (InterStageVariables.vsModule
             :: (if truthy InterStageVariables.fsModule
                 then [InterStageVariables.fsModule] else []))
            (skipn 7 a2)
  /\ trace r2 = combine (map fst (trace r2)) (map Returns a2)
  /\ result r2 = Returned a2.[5].
Proof.
  intros s1 r1 r2 a2.
  assert (H1 : completes (result r1))
    by (exists (VHost 1); split; [vm_compute; reflexivity | discriminate]).
  assert (H2 : completes (result r2))
    by (vm_compute; eexists; split; [reflexivity | discriminate]).
  split; [split; assumption |].
  exact (proj2 (shader_variant_makes_same_calls _ _ (Browser.respond ieee)
                  (Browser.respond ieee) Browser.initial Browser.initial
                  VUndefined InterStageVariables.vsModule
                  InterStageVariables.fsModule H1 H2)).
Defined.
